(** * Travel-API: the trip planner and its normalization helpers

    A shallow embedding of [main.py]: the two normalization helpers
    [_parse_price] and [_parse_stops], the construction of the
    [FlightInfo] and [HotelInfo] records, the validator of
    [depart_date], the [/flights/search] and [/hotels/search] endpoints
    and the [/trip/plan] endpoint with its three search legs, its hotel
    filter, its cost aggregation and its advisory.

    Modelling conventions.
    - A Python [float] is an exact rational ([Q]); rounding, infinities
      and NaN are outside the model.  [float('inf')], which the return
      leg uses as its initial bound, is the bound [None].  Equality of
      prices is [Qeq] ([==]).
    - A Python [str] is a [string] whose characters are the code points
      below 256; among those the regular-expression class [\d] is
      exactly the ten ASCII digits.
    - A value of unknown Python type (the attributes the code reads with
      [getattr] and feeds to its own helpers) is a [PyVal].
    - An exception is a value of [PyExc]; code that may raise returns a
      [Res]; code that also calls a collaborator or logs runs in the
      monad [M], which threads the list of events performed so far. *)

From Stdlib Require Import ZArith QArith Qround List String Ascii Bool Lia Lqa.
Import ListNotations.
Open Scope string_scope.
Open Scope Z_scope.

(** ** Python values and exceptions *)

Inductive PyVal : Type :=
| PyNone
| PyBool (b : bool)
| PyInt (z : Z)
| PyFloat (q : Q)
| PyStr (s : string)
| PyObj (repr : string).   (* any other object: a list, a dict, ... *)

Inductive PyExc : Type :=
| ValueError (msg : string)
| TypeError (msg : string)
| ValidationError (msg : string)
| UpstreamError (msg : string)            (* whatever a collaborator raises *)
| HTTPException (status_code : Z) (detail : string).

(** [str(e)] *)
Definition str_exc (e : PyExc) : string :=
  match e with
  | ValueError m | TypeError m | ValidationError m | UpstreamError m => m
  | HTTPException c d => d
  end.

Inductive Res (A : Type) : Type :=
| Ret (a : A)
| Raise (e : PyExc).
Arguments Ret {A} a.
Arguments Raise {A} e.

Definition res_bind {A B} (r : Res A) (k : A -> Res B) : Res B :=
  match r with
  | Ret a => k a
  | Raise e => Raise e
  end.

Fixpoint res_map {A B} (f : A -> Res B) (l : list A) : Res (list B) :=
  match l with
  | [] => Ret []
  | x :: r =>
      res_bind (f x) (fun y =>
      res_bind (res_map f r) (fun ys => Ret (y :: ys)))
  end.

Definition raises {A} (r : Res A) : Prop :=
  match r with Ret _ => False | Raise _ => True end.

Definition returns {A} (r : Res A) : Prop :=
  match r with Ret _ => True | Raise _ => False end.

(** ** Strings: the regular expression and the numeric conversions *)

Definition is_digit (c : ascii) : bool :=
  let n := N_of_ascii c in (48 <=? n)%N && (n <=? 57)%N.

Definition digit_val (c : ascii) : Z := Z.of_N (N_of_ascii c) - 48.

(** the character class [[\d,.]] *)
Definition is_price_char (c : ascii) : bool :=
  is_digit c || Ascii.eqb c "," || Ascii.eqb c ".".

Fixpoint take_while (p : ascii -> bool) (s : string) : string :=
  match s with
  | EmptyString => EmptyString
  | String c r => if p c then String c (take_while p r) else EmptyString
  end.

Fixpoint drop_while (p : ascii -> bool) (s : string) : string :=
  match s with
  | EmptyString => EmptyString
  | String c r => if p c then drop_while p r else s
  end.

Fixpoint str_filter (p : ascii -> bool) (s : string) : string :=
  match s with
  | EmptyString => EmptyString
  | String c r => if p c then String c (str_filter p r) else str_filter p r
  end.

Fixpoint str_forall (p : ascii -> bool) (s : string) : bool :=
  match s with
  | EmptyString => true
  | String c r => p c && str_forall p r
  end.

Definition str_empty (s : string) : bool :=
  match s with EmptyString => true | _ => false end.

(** [re.search(r"[\d,.]+", s)]: the leftmost, longest run of characters
    of the class; [None] when the string has none. *)
Fixpoint re_search_price (s : string) : option string :=
  match s with
  | EmptyString => None
  | String c r =>
      if is_price_char c then Some (take_while is_price_char s)
      else re_search_price r
  end.

(** [m.replace(",", "")] *)
Definition remove_commas (s : string) : string :=
  str_filter (fun c => negb (Ascii.eqb c ",")) s.

(** value of a run of digits, most significant first *)
Fixpoint digits_val (acc : Z) (s : string) : Z :=
  match s with
  | EmptyString => acc
  | String c r => digits_val (10 * acc + digit_val c) r
  end.

Fixpoint pow10 (n : nat) : positive :=
  match n with
  | O => 1%positive
  | S k => (10 * pow10 k)%positive
  end.

(** [float(t)] on the texts [_parse_price] can hand to it, which are made
    of digits and dots only: [t] is a decimal literal when it has at
    least one digit and at most one dot ("12", "12.", ".5", "12.5");
    anything else ("", ".", "1.2.3") is a [ValueError]. *)
Definition py_float (t : string) : Res Q :=
  let ip := take_while is_digit t in
  let rest := drop_while is_digit t in
  let bad := Raise (ValueError ("could not convert string to float: '" ++ t ++ "'")) in
  match rest with
  | EmptyString =>
      if str_empty ip then bad else Ret (digits_val 0 ip # 1)
  | String c fp =>
      if Ascii.eqb c "." && str_forall is_digit fp
         && negb (str_empty ip && str_empty fp)
      then Ret (digits_val 0 (ip ++ fp) # pow10 (String.length fp))
      else bad
  end.

(** ** The helpers of [main.py] *)

(** [_parse_price]: a string goes through the regular expression and
    [float]; everything else is returned as it is. *)
Definition _parse_price (price : PyVal) : Res PyVal :=
  match price with
  | PyStr s =>
      match re_search_price s with
      | Some m => res_bind (py_float (remove_commas m)) (fun q => Ret (PyFloat q))
      | None => Ret PyNone
      end
  | _ => Ret price
  end.

(** [int(s)] for a string: surrounding white space is dropped, a sign
    may come first, then decimal digits, which single underscores may
    separate. *)
Definition is_space (c : ascii) : bool :=
  let n := N_of_ascii c in
  ((9 <=? n)%N && (n <=? 13)%N) || ((28 <=? n)%N && (n <=? 32)%N)
  || (n =? 133)%N || (n =? 160)%N.

Fixpoint str_rev_app (s acc : string) : string :=
  match s with
  | EmptyString => acc
  | String c r => str_rev_app r (String c acc)
  end.

Definition str_rev (s : string) : string := str_rev_app s EmptyString.

Definition strip (s : string) : string :=
  str_rev (drop_while is_space (str_rev (drop_while is_space s))).

Fixpoint int_body (after_digit : bool) (s : string) : bool :=
  match s with
  | EmptyString => after_digit
  | String c r =>
      if is_digit c then int_body true r
      else if Ascii.eqb c "_" then after_digit && int_body false r
      else false
  end.

Definition py_int_of_str (s : string) : Res Z :=
  let t := strip s in
  let '(neg, body) :=
    match t with
    | String c r =>
        if Ascii.eqb c "-" then (true, r)
        else if Ascii.eqb c "+" then (false, r)
        else (false, t)
    | EmptyString => (false, t)
    end in
  if int_body false body
  then let v := digits_val 0 (str_filter is_digit body) in
       Ret (if neg then - v else v)
  else Raise (ValueError ("invalid literal for int() with base 10: '" ++ s ++ "'")).

(** [int(v)] on the values that reach it in [_parse_stops]: a string is
    parsed, a float is truncated towards zero, any other object has no
    conversion. *)
Definition py_int (v : PyVal) : Res Z :=
  match v with
  | PyInt z => Ret z
  | PyBool b => Ret (if b then 1 else 0)
  | PyFloat q => Ret (Z.quot (Qnum q) (Zpos (Qden q)))
  | PyStr s => py_int_of_str s
  | PyNone => Raise (TypeError "int() argument must be a string, a bytes-like object or a real number, not 'NoneType'")
  | PyObj r => Raise (TypeError ("int() argument must be a string, a bytes-like object or a real number, not '" ++ r ++ "'"))
  end.

(** [_parse_stops]: the body runs under [try], and [ValueError] and
    [TypeError] are turned into [None]; any other exception goes on. *)
Definition _parse_stops (stops : PyVal) : Res PyVal :=
  let body : Res PyVal :=
    match stops with
    | PyNone => Ret PyNone
    | PyInt _ | PyBool _ => Ret stops          (* isinstance(stops, int) *)
    | _ => res_bind (py_int stops) (fun z => Ret (PyInt z))
    end in
  match body with
  | Raise (ValueError _) | Raise (TypeError _) => Ret PyNone
  | r => r
  end.

(** ** The response records *)

Module FlightInfo.
Record t : Type := mk {
  name : string;
  departure : string;
  arrival : string;
  arrival_time_ahead : option string;
  duration : option string;
  stops : option Z;
  delay : option string;
  price : option Q;
  is_best : option bool
}.
End FlightInfo.

Module HotelInfo.
Record t : Type := mk {
  name : string;
  price : option Q;
  rating : option Q;
  url : option string;
  amenities : option (list string)
}.
End HotelInfo.

(** What the flight collaborator returns for one flight.  The two
    attributes that go through the helpers above are of unknown type;
    the others are typed as the response model declares them. *)
Module RawFlight.
Record t : Type := mk {
  name : string;
  departure : string;
  arrival : string;
  arrival_time_ahead : option string;
  duration : option string;
  stops : PyVal;
  delay : option string;
  price : PyVal;
  is_best : option bool
}.
End RawFlight.

(** What the hotel collaborator returns for one hotel; [main.py] copies
    the attributes without touching them. *)
Module RawHotel.
Record t : Type := mk {
  name : string;
  price : option Q;
  rating : option Q;
  url : option string;
  amenities : option (list string)
}.
End RawHotel.

(** Validation of a field declared [Optional[float]]: numbers are
    accepted (an integer or a boolean is converted), [None] stays
    [None], an object of another type is rejected.  A string never
    reaches the [price] field, [_parse_price] has converted it. *)
Definition validate_opt_float (v : PyVal) : Res (option Q) :=
  match v with
  | PyNone => Ret None
  | PyFloat q => Ret (Some q)
  | PyInt z => Ret (Some (inject_Z z))
  | PyBool b => Ret (Some (if b then 1%Q else 0%Q))
  | PyStr _ | PyObj _ =>
      Raise (ValidationError "price: Input should be a valid number")
  end.

(** Validation of a field declared [Optional[int]], on what
    [_parse_stops] returns. *)
Definition validate_opt_int (v : PyVal) : Res (option Z) :=
  match v with
  | PyNone => Ret None
  | PyInt z => Ret (Some z)
  | PyBool b => Ret (Some (if b then 1 else 0))
  | _ => Raise (ValidationError "stops: Input should be a valid integer")
  end.

(** The [FlightInfo(...)] expression that the three flight searches of
    [main.py] share. *)
Definition FlightInfo_of_raw (f : RawFlight.t) : Res FlightInfo.t :=
  res_bind (_parse_stops (RawFlight.stops f)) (fun stops_v =>
  res_bind (_parse_price (RawFlight.price f)) (fun price_v =>
  res_bind (validate_opt_int stops_v) (fun stops =>
  res_bind (validate_opt_float price_v) (fun price =>
  Ret {| FlightInfo.name := RawFlight.name f;
         FlightInfo.departure := RawFlight.departure f;
         FlightInfo.arrival := RawFlight.arrival f;
         FlightInfo.arrival_time_ahead := RawFlight.arrival_time_ahead f;
         FlightInfo.duration := RawFlight.duration f;
         FlightInfo.stops := stops;
         FlightInfo.delay := RawFlight.delay f;
         FlightInfo.price := price;
         FlightInfo.is_best := RawFlight.is_best f |})))).

Definition HotelInfo_of_raw (h : RawHotel.t) : HotelInfo.t :=
  {| HotelInfo.name := RawHotel.name h;
     HotelInfo.price := RawHotel.price h;
     HotelInfo.rating := RawHotel.rating h;
     HotelInfo.url := RawHotel.url h;
     HotelInfo.amenities := RawHotel.amenities h |}.

(** ** Requests *)

Module HotelPreferences.
Record t : Type := mk {
  star_rating : option Z;
  max_price_per_night : option Q;
  amenities : option (list string)
}.
End HotelPreferences.

Module TripPlanRequest.
Record t : Type := mk {
  origin : string;
  destination : string;
  depart_date : string;
  return_date : option string;
  adults : Z;
  children : Z;
  hotel_preferences : option HotelPreferences.t;
  max_total_budget : option Q
}.
End TripPlanRequest.

Module FlightSearchRequest.
Record t : Type := mk {
  date : string;
  from_airport : string;
  to_airport : string;
  trip : string;
  seat : string;
  adults : Z;
  children : Z;
  infants_in_seat : Z;
  infants_on_lap : Z;
  fetch_mode : string
}.
End FlightSearchRequest.

(** The arguments of one [get_flights] call ([FlightData], [Passengers]
    and the keywords) and of one [get_hotels] call. *)
Module FlightQuery.
Record t : Type := mk {
  date : string;
  from_airport : string;
  to_airport : string;
  trip : string;
  seat : string;
  adults : Z;
  children : Z;
  infants_in_seat : Z;
  infants_on_lap : Z;
  fetch_mode : string
}.
End FlightQuery.

Module HotelQuery.
Record t : Type := mk {
  checkin_date : string;
  checkout_date : string;
  location : string;
  adults : Z;
  children : Z;
  fetch_mode : string;
  debug : bool;
  limit : Z
}.
End HotelQuery.

Module FlightsResult.
Record t : Type := mk {
  flights : list RawFlight.t;
  current_price : option string
}.
End FlightsResult.

Module HotelsResult.
Record t : Type := mk {
  hotels : list RawHotel.t;
  lowest_price : option Q;
  current_price : option Q
}.
End HotelsResult.

Module FlightSearchResponse.
Record t : Type := mk {
  flights : list FlightInfo.t;
  current_price : option string
}.
End FlightSearchResponse.

(** The [breakdown] dictionary of the trip plan, with its five keys. *)
Module Breakdown.
Record t : Type := mk {
  flight : Q;
  hotel : Q;
  nights : Z;
  adults : Z;
  children : Z
}.
End Breakdown.

Module TripPlanResponse.
Record t : Type := mk {
  best_outbound_flight : option FlightInfo.t;
  best_return_flight : option FlightInfo.t;
  best_hotel : option HotelInfo.t;
  total_estimated_cost : Q;
  per_person_per_day : option Q;
  breakdown : Breakdown.t;
  suggestions : option string
}.
End TripPlanResponse.

(** ** Dates: the validator of [depart_date] *)

Record date : Type := mkdate { year : Z; month : Z; day : Z }.

Definition date_ltb (a b : date) : bool :=
  (year a <? year b)
  || ((year a =? year b)
      && ((month a <? month b)
          || ((month a =? month b) && (day a <? day b)))).

Definition is_leap (y : Z) : bool :=
  ((y mod 4 =? 0) && negb (y mod 100 =? 0)) || (y mod 400 =? 0).

Definition days_in_month (y m : Z) : Z :=
  if m =? 2 then (if is_leap y then 29 else 28)
  else if (m =? 4) || (m =? 6) || (m =? 9) || (m =? 11) then 30
  else 31.

(** splits at the first occurrence of [sep] *)
Fixpoint split_at (sep : ascii) (s : string) : option (string * string) :=
  match s with
  | EmptyString => None
  | String c r =>
      if Ascii.eqb c sep then Some (EmptyString, r)
      else match split_at sep r with
           | Some (a, b) => Some (String c a, b)
           | None => None
           end
  end.

Definition digits_between (lo hi : nat) (s : string) : bool :=
  str_forall is_digit s
  && (lo <=? String.length s)%nat && (String.length s <=? hi)%nat.

(** [datetime.datetime.strptime(v, "%Y-%m-%d").date()]: four digits of
    year, one or two of month and of day, and a date that exists. *)
Definition strptime_ymd (v : string) : Res date :=
  let bad := Raise (ValueError ("time data '" ++ v ++ "' does not match format '%Y-%m-%d'")) in
  match split_at "-" v with
  | Some (ys, r) =>
      match split_at "-" r with
      | Some (ms, ds) =>
          if digits_between 4 4 ys && digits_between 1 2 ms && digits_between 1 2 ds
          then
            let y := digits_val 0 ys in
            let m := digits_val 0 ms in
            let d := digits_val 0 ds in
            if (1 <=? y) && (1 <=? m) && (m <=? 12)
               && (1 <=? d) && (d <=? days_in_month y m)
            then Ret (mkdate y m d)
            else bad
          else bad
      | None => bad
      end
  | None => bad
  end.

(** The [field_validator] of [depart_date]. *)
Definition depart_date_not_in_past (today : date) (v : string) : Res string :=
  res_bind (strptime_ymd v) (fun depart =>
  if date_ltb depart today
  then Raise (ValueError "depart_date cannot be in the past.")
  else Ret v).

(** Validation of a [TripPlanRequest]: the two [Field] bounds and the
    validator of [depart_date]; no other field is constrained. *)
Definition TripPlanRequest_validate (today : date) (req : TripPlanRequest.t)
  : Res TripPlanRequest.t :=
  res_bind (depart_date_not_in_past today (TripPlanRequest.depart_date req)) (fun _ =>
  if (1 <=? TripPlanRequest.adults req) && (0 <=? TripPlanRequest.children req)
  then Ret req
  else Raise (ValidationError "Input should be greater than or equal to the bound")).

(** ** Truthiness and selection by price *)

Definition truthy_str (s : string) : bool := negb (str_empty s).
Definition truthy_float (q : Q) : bool := negb (Qeq_bool q 0).
Definition truthy_int (z : Z) : bool := negb (z =? 0).

(** [x < y] on floats *)
Definition Qltb (x y : Q) : bool := negb (Qle_bool y x).

(** Records with an optional price: flights and hotels. *)
Class Priced (A : Type) : Type := price_of : A -> option Q.

#[export] Instance Priced_FlightInfo : Priced FlightInfo.t := FlightInfo.price.
#[export] Instance Priced_HotelInfo : Priced HotelInfo.t := HotelInfo.price.

(** the generator [(f for f in l if f.price is not None)], each record
    next to its key *)
Fixpoint priced {A} `{Priced A} (l : list A) : list (Q * A) :=
  match l with
  | [] => []
  | x :: r =>
      match price_of x with
      | Some p => (p, x) :: priced r
      | None => priced r
      end
  end.

(** the scan of [min(..., key=...)]: the running minimum is replaced
    only by a strictly smaller key *)
Fixpoint min_scan {A} (best : Q * A) (l : list (Q * A)) : Q * A :=
  match l with
  | [] => best
  | y :: r => min_scan (if Qltb (fst y) (fst best) then y else best) r
  end.

(** [min(it, key=..., default=None)] *)
Definition py_min {A} (l : list (Q * A)) : option A :=
  match l with
  | [] => None
  | x :: r => Some (snd (min_scan x r))
  end.

(** [min((f for f in l if f.price is not None), key=lambda x: x.price,
    default=None)] *)
Definition best_by_price {A} `{Priced A} (l : list A) : option A :=
  py_min (priced l).

(** ** Events, collaborators and the monad *)

Inductive LogLevel : Type := ERROR | WARNING.

Inductive Event : Type :=
| CallGetFlights (q : FlightQuery.t)
| CallGetHotels (q : HotelQuery.t)
| Logged (level : LogLevel) (msg : string).

(** The external collaborators: the two search libraries, each a
    function of the arguments of the call that fails or returns, and
    [pd.to_datetime], which gives the instant in nanoseconds or nothing
    when the text is no date. *)
Class Collaborators : Type := {
  get_flights : FlightQuery.t -> Res FlightsResult.t;
  get_hotels : HotelQuery.t -> Res HotelsResult.t;
  to_datetime : string -> option Z
}.

Definition M (A : Type) : Type := list Event -> list Event * Res A.

Definition ret {A} (a : A) : M A := fun tr => (tr, Ret a).

Definition raise {A} (e : PyExc) : M A := fun tr => (tr, Raise e).

Definition bind {A B} (c : M A) (k : A -> M B) : M B :=
  fun tr =>
    match c tr with
    | (tr', Ret a) => k a tr'
    | (tr', Raise e) => (tr', Raise e)
    end.

Notation "x <- c ;; k" := (bind c (fun x => k))
  (at level 61, c at next level, right associativity).
Notation "c ;;; k" := (bind c (fun _ => k))
  (at level 61, right associativity).

Definition lift {A} (r : Res A) : M A := fun tr => (tr, r).

(** [try: body  except Exception as e: handler e] *)
Definition try_except {A} (body : M A) (handler : PyExc -> M A) : M A :=
  fun tr =>
    match body tr with
    | (tr', Ret a) => (tr', Ret a)
    | (tr', Raise e) => handler e tr'
    end.

Definition logging (level : LogLevel) (msg : string) : M unit :=
  fun tr => ((tr ++ [Logged level msg])%list, Ret tt).

(** [for x in l: st = body st x] *)
Fixpoint for_each {A S} (l : list A) (body : S -> A -> M S) (st : S) : M S :=
  match l with
  | [] => ret st
  | x :: r => st' <- body st x ;; for_each r body st'
  end.

Definition ns_per_day : Z := 86400000000000.

(** [.days] of a [Timedelta]: whole days, rounded down *)
Definition Timedelta_days (td : Z) : Z := td / ns_per_day.

Definition advisory : string :=
  "Consider adjusting your dates, reducing hotel star rating, or increasing your budget.".

Section Endpoints.

Context {C : Collaborators}.

Definition call_get_flights (q : FlightQuery.t) : M FlightsResult.t :=
  fun tr => ((tr ++ [CallGetFlights q])%list, get_flights q).

Definition call_get_hotels (q : HotelQuery.t) : M HotelsResult.t :=
  fun tr => ((tr ++ [CallGetHotels q])%list, get_hotels q).

(** *** [/flights/search] *)

Definition search_flights (req : FlightSearchRequest.t) : M FlightSearchResponse.t :=
  try_except
    (result <- call_get_flights
       {| FlightQuery.date := FlightSearchRequest.date req;
          FlightQuery.from_airport := FlightSearchRequest.from_airport req;
          FlightQuery.to_airport := FlightSearchRequest.to_airport req;
          FlightQuery.trip := FlightSearchRequest.trip req;
          FlightQuery.seat := FlightSearchRequest.seat req;
          FlightQuery.adults := FlightSearchRequest.adults req;
          FlightQuery.children := FlightSearchRequest.children req;
          FlightQuery.infants_in_seat := FlightSearchRequest.infants_in_seat req;
          FlightQuery.infants_on_lap := FlightSearchRequest.infants_on_lap req;
          FlightQuery.fetch_mode := FlightSearchRequest.fetch_mode req |} ;;
     flights <- lift (res_map FlightInfo_of_raw (FlightsResult.flights result)) ;;
     ret {| FlightSearchResponse.flights := flights;
            FlightSearchResponse.current_price := FlightsResult.current_price result |})
    (fun e =>
       logging ERROR ("Flight search error: " ++ str_exc e) ;;;
       raise (HTTPException 400 (str_exc e))).

(** *** [/trip/plan]: the outbound leg *)

Definition flight_query (req : TripPlanRequest.t) (date from_airport to_airport trip : string)
  : FlightQuery.t :=
  {| FlightQuery.date := date;
     FlightQuery.from_airport := from_airport;
     FlightQuery.to_airport := to_airport;
     FlightQuery.trip := trip;
     FlightQuery.seat := "economy";
     FlightQuery.adults := TripPlanRequest.adults req;
     FlightQuery.children := TripPlanRequest.children req;
     FlightQuery.infants_in_seat := 0;
     FlightQuery.infants_on_lap := 0;
     FlightQuery.fetch_mode := "local" |}.

Definition outbound_query (req : TripPlanRequest.t) : FlightQuery.t :=
  flight_query req (TripPlanRequest.depart_date req)
    (TripPlanRequest.origin req) (TripPlanRequest.destination req) "one-way".

(** the body shared by the flight legs: one call, the records, the
    cheapest of them *)
Definition search_best (q : FlightQuery.t) : M (option FlightInfo.t) :=
  result <- call_get_flights q ;;
  flights <- lift (res_map FlightInfo_of_raw (FlightsResult.flights result)) ;;
  ret (best_by_price flights).

Definition outbound_leg (req : TripPlanRequest.t) : M (option FlightInfo.t) :=
  try_except
    (search_best (outbound_query req))
    (fun e =>
       logging ERROR ("Outbound flight search error in /trip/plan: " ++ str_exc e) ;;;
       raise (HTTPException 502 ("Outbound flight search failed: " ++ str_exc e))).

(** *** the return leg *)

Definition trip_types : list string := ["one-way"; "round-trip"; "multi-city"].

Definition return_query (req : TripPlanRequest.t) (rdate trip_type : string) : FlightQuery.t :=
  flight_query req rdate
    (TripPlanRequest.destination req) (TripPlanRequest.origin req) trip_type.

(** [best_price] ([None] for [float('inf')]) and [best_return_flight] *)
Definition ReturnState : Type := (option Q * option FlightInfo.t)%type.

Definition below (p : Q) (best_price : option Q) : bool :=
  match best_price with
  | None => true
  | Some b => Qltb p b
  end.

Definition update_best (st : ReturnState) (candidate : option FlightInfo.t) : ReturnState :=
  match candidate with
  | Some c =>
      match FlightInfo.price c with
      | Some p => if below p (fst st) then (Some p, Some c) else st
      | None => st
      end
  | None => st
  end.

(** one turn of the loop over the trip types *)
Definition return_variant (req : TripPlanRequest.t) (rdate : string)
           (st : ReturnState) (trip_type : string) : M ReturnState :=
  try_except
    (candidate <- search_best (return_query req rdate trip_type) ;;
     ret (update_best st candidate))
    (fun e =>
       logging WARNING ("Return flight search error for trip_type " ++ trip_type
                        ++ " in /trip/plan: " ++ str_exc e) ;;;
       ret st).

Definition return_leg (req : TripPlanRequest.t) : M (option FlightInfo.t) :=
  match TripPlanRequest.return_date req with
  | Some rdate =>
      if truthy_str rdate
      then st <- for_each trip_types (return_variant req rdate) (None, None) ;;
           ret (snd st)
      else ret None
  | None => ret None
  end.

(** *** the hotel leg *)

Definition hotel_query (req : TripPlanRequest.t) : HotelQuery.t :=
  {| HotelQuery.checkin_date := TripPlanRequest.depart_date req;
     HotelQuery.checkout_date :=
       match TripPlanRequest.return_date req with
       | Some r => if truthy_str r then r else TripPlanRequest.depart_date req
       | None => TripPlanRequest.depart_date req
       end;
     HotelQuery.location := TripPlanRequest.destination req;
     HotelQuery.adults := TripPlanRequest.adults req;
     HotelQuery.children := TripPlanRequest.children req;
     HotelQuery.fetch_mode := "live";
     HotelQuery.debug := false;
     HotelQuery.limit := 10 |}.

(** [h.rating and h.rating >= star_rating] *)
Definition rating_ok (star_rating : Z) (h : HotelInfo.t) : bool :=
  match HotelInfo.rating h with
  | Some r => truthy_float r && Qle_bool (inject_Z star_rating) r
  | None => false
  end.

(** [h.price and h.price <= max_price_per_night] *)
Definition price_ok (max_price_per_night : Q) (h : HotelInfo.t) : bool :=
  match HotelInfo.price h with
  | Some p => truthy_float p && Qle_bool p max_price_per_night
  | None => false
  end.

(** [a in l] on strings *)
Definition str_in (a : string) (l : list string) : bool :=
  existsb (String.eqb a) l.

(** [h.amenities and all(a in h.amenities for a in amenities)] *)
Definition amenities_ok (amenities : list string) (h : HotelInfo.t) : bool :=
  match HotelInfo.amenities h with
  | Some ((_ :: _) as have) => forallb (fun a => str_in a have) amenities
  | Some [] | None => false
  end.

(** the three successive filters of [plan_trip], each one guarded by
    the truth value of its preference *)
Definition filter_hotels (prefs : option HotelPreferences.t)
           (hotels : list HotelInfo.t) : list HotelInfo.t :=
  let filtered_hotels := hotels in
  match prefs with
  | Some pr =>
      let filtered_hotels :=
        match HotelPreferences.star_rating pr with
        | Some s =>
            if truthy_int s then filter (rating_ok s) filtered_hotels
            else filtered_hotels
        | None => filtered_hotels
        end in
      let filtered_hotels :=
        match HotelPreferences.max_price_per_night pr with
        | Some m =>
            if truthy_float m then filter (price_ok m) filtered_hotels
            else filtered_hotels
        | None => filtered_hotels
        end in
      let filtered_hotels :=
        match HotelPreferences.amenities pr with
        | Some ((_ :: _) as wanted) => filter (amenities_ok wanted) filtered_hotels
        | Some [] | None => filtered_hotels
        end in
      filtered_hotels
  | None => filtered_hotels
  end.

Definition hotel_leg (req : TripPlanRequest.t) : M (option HotelInfo.t) :=
  try_except
    (hotel_result <- call_get_hotels (hotel_query req) ;;
     let hotels := map HotelInfo_of_raw (HotelsResult.hotels hotel_result) in
     let filtered_hotels := filter_hotels (TripPlanRequest.hotel_preferences req) hotels in
     ret (best_by_price filtered_hotels))
    (fun e =>
       logging ERROR ("Hotel search error in /trip/plan: " ++ str_exc e) ;;;
       raise (HTTPException 502 ("Hotel search failed: " ++ str_exc e))).

(** *** the costs *)

(** [(pd.to_datetime(return_date) - pd.to_datetime(depart_date)).days
    if return_date else 1] *)
Definition compute_nights (req : TripPlanRequest.t) : Res Z :=
  match TripPlanRequest.return_date req with
  | Some r =>
      if truthy_str r then
        match to_datetime r with
        | Some tr =>
            match to_datetime (TripPlanRequest.depart_date req) with
            | Some td => Ret (Timedelta_days (tr - td))
            | None => Raise (ValueError "Unknown datetime string format")
            end
        | None => Raise (ValueError "Unknown datetime string format")
        end
      else Ret 1
  | None => Ret 1
  end.

(** one [if best and best.price: total_flight_cost += ...] *)
Definition add_flight (total_flight_cost : Q) (best : option FlightInfo.t)
           (travellers : Z) : Q :=
  match best with
  | Some f =>
      match FlightInfo.price f with
      | Some p =>
          if truthy_float p then (total_flight_cost + p * inject_Z travellers)%Q
          else total_flight_cost
      | None => total_flight_cost
      end
  | None => total_flight_cost
  end.

(** lines 312 to 341: the costs, the advisory and the response *)
Definition assemble (req : TripPlanRequest.t)
           (best_outbound_flight best_return_flight : option FlightInfo.t)
           (best_hotel : option HotelInfo.t) (nights : Z) : TripPlanResponse.t :=
  let travellers := TripPlanRequest.adults req + TripPlanRequest.children req in
  let total_flight_cost := 0%Q in
  let total_flight_cost := add_flight total_flight_cost best_outbound_flight travellers in
  let total_flight_cost := add_flight total_flight_cost best_return_flight travellers in
  let total_hotel_cost :=
    match best_hotel with
    | Some h =>
        match HotelInfo.price h with
        | Some p => if truthy_float p then (p * inject_Z nights)%Q else 0%Q
        | None => 0%Q
        end
    | None => 0%Q
    end in
  let total_estimated_cost := (total_flight_cost + total_hotel_cost)%Q in
  let per_person_per_day :=
    if (0 <? nights) && (0 <? travellers)
    then Some (total_estimated_cost / inject_Z (travellers * nights))%Q
    else None in
  let breakdown :=
    {| Breakdown.flight := total_flight_cost;
       Breakdown.hotel := total_hotel_cost;
       Breakdown.nights := nights;
       Breakdown.adults := TripPlanRequest.adults req;
       Breakdown.children := TripPlanRequest.children req |} in
  let suggestions :=
    match TripPlanRequest.max_total_budget req with
    | Some b =>
        if truthy_float b && Qltb b total_estimated_cost then Some advisory else None
    | None => None
    end in
  {| TripPlanResponse.best_outbound_flight := best_outbound_flight;
     TripPlanResponse.best_return_flight := best_return_flight;
     TripPlanResponse.best_hotel := best_hotel;
     TripPlanResponse.total_estimated_cost := total_estimated_cost;
     TripPlanResponse.per_person_per_day := per_person_per_day;
     TripPlanResponse.breakdown := breakdown;
     TripPlanResponse.suggestions := suggestions |}.

(** *** [plan_trip] *)

Definition plan_trip (req : TripPlanRequest.t) : M TripPlanResponse.t :=
  try_except
    (best_outbound_flight <- outbound_leg req ;;
     best_return_flight <- return_leg req ;;
     best_hotel <- hotel_leg req ;;
     nights <- lift (compute_nights req) ;;
     ret (assemble req best_outbound_flight best_return_flight best_hotel nights))
    (fun e =>
       match e with
       | HTTPException _ _ => raise e
       | _ =>
           logging ERROR ("Trip plan error: " ++ str_exc e) ;;;
           raise (HTTPException 400 (str_exc e))
       end).

End Endpoints.

(** ** Concrete collaborators, for the examples *)

(** days since 1970-01-01 of a date of the Gregorian calendar *)
Definition days_from_civil (d : date) : Z :=
  let y := if month d <=? 2 then year d - 1 else year d in
  let era := y / 400 in
  let yoe := y - era * 400 in
  let mp := (month d + 9) mod 12 in
  let doy := (153 * mp + 2) / 5 + day d - 1 in
  let doe := yoe * 365 + yoe / 4 - yoe / 100 + doy in
  era * 146097 + doe - 719468.

(** [pd.to_datetime] on dates written YYYY-MM-DD: midnight of that day *)
Definition iso_to_datetime (s : string) : option Z :=
  match strptime_ymd s with
  | Ret d => Some (days_from_civil d * ns_per_day)
  | Raise _ => None
  end.

Definition a_flight (name : string) (price : PyVal) : RawFlight.t :=
  {| RawFlight.name := name;
     RawFlight.departure := "10:00 AM";
     RawFlight.arrival := "12:00 PM";
     RawFlight.arrival_time_ahead := None;
     RawFlight.duration := Some "2 hr";
     RawFlight.stops := PyInt 0;
     RawFlight.delay := None;
     RawFlight.price := price;
     RawFlight.is_best := None |}.

Definition some_flights (l : list RawFlight.t) : Res FlightsResult.t :=
  Ret {| FlightsResult.flights := l; FlightsResult.current_price := None |}.

Definition a_hotel (name : string) (price rating : option Q)
           (amenities : option (list string)) : RawHotel.t :=
  {| RawHotel.name := name;
     RawHotel.price := price;
     RawHotel.rating := rating;
     RawHotel.url := None;
     RawHotel.amenities := amenities |}.

Definition some_hotels (l : list RawHotel.t) : Res HotelsResult.t :=
  Ret {| HotelsResult.hotels := l;
         HotelsResult.lowest_price := None;
         HotelsResult.current_price := None |}.

(** Every flight search finds one flight at 300, the hotel search one
    hotel at 100 a night. *)
Definition world_300 : Collaborators :=
  {| get_flights := fun _ => some_flights [a_flight "BA 304" (PyStr "$300")];
     get_hotels := fun _ => some_hotels
        [a_hotel "Hotel du Nord" (Some 100%Q) (Some 3%Q) (Some ["Wi-Fi"])];
     to_datetime := iso_to_datetime |}.

(** Flights out of LHR are found at 300; on the way back the one-way
    search fails, the round-trip search finds 400 and the multi-city
    search 350. *)
Definition world_variants : Collaborators :=
  {| get_flights := fun q =>
       if String.eqb (FlightQuery.from_airport q) "LHR"
       then some_flights [a_flight "BA 304" (PyStr "$300")]
       else if String.eqb (FlightQuery.trip q) "one-way"
       then Raise (UpstreamError "No flights found")
       else if String.eqb (FlightQuery.trip q) "round-trip"
       then some_flights [a_flight "AF 1681" (PyStr "$400")]
       else some_flights [a_flight "AF 1081" (PyStr "$350")];
     get_hotels := fun _ => some_hotels
        [a_hotel "Hotel du Nord" (Some 100%Q) (Some 3%Q) (Some ["Wi-Fi"])];
     to_datetime := iso_to_datetime |}.

(** The flight search fails; the hotel search would succeed. *)
Definition world_no_flights : Collaborators :=
  {| get_flights := fun _ => Raise (UpstreamError "No flights found");
     get_hotels := fun _ => some_hotels
        [a_hotel "Hotel du Nord" (Some 100%Q) (Some 3%Q) (Some ["Wi-Fi"])];
     to_datetime := iso_to_datetime |}.

(** The flight search succeeds, the hotel search fails. *)
Definition world_no_hotels : Collaborators :=
  {| get_flights := fun _ => some_flights [a_flight "BA 304" (PyStr "$300")];
     get_hotels := fun _ => Raise (UpstreamError "Scraper blocked");
     to_datetime := iso_to_datetime |}.

(** One of the two flights found carries a price that is no number. *)
Definition world_malformed : Collaborators :=
  {| get_flights := fun _ => some_flights
        [a_flight "AF 1681" (PyStr "$400"); a_flight "BA 304" (PyStr "1.2.3")];
     get_hotels := fun _ => some_hotels
        [a_hotel "Hotel du Nord" (Some 100%Q) (Some 3%Q) (Some ["Wi-Fi"])];
     to_datetime := iso_to_datetime |}.

Definition a_flight_search : FlightSearchRequest.t :=
  {| FlightSearchRequest.date := "2025-06-24";
     FlightSearchRequest.from_airport := "LHR";
     FlightSearchRequest.to_airport := "CDG";
     FlightSearchRequest.trip := "one-way";
     FlightSearchRequest.seat := "economy";
     FlightSearchRequest.adults := 2;
     FlightSearchRequest.children := 0;
     FlightSearchRequest.infants_in_seat := 0;
     FlightSearchRequest.infants_on_lap := 0;
     FlightSearchRequest.fetch_mode := "fallback" |}.

Definition a_request (depart_date : string) (return_date : option string)
           (max_total_budget : option Q) : TripPlanRequest.t :=
  {| TripPlanRequest.origin := "LHR";
     TripPlanRequest.destination := "CDG";
     TripPlanRequest.depart_date := depart_date;
     TripPlanRequest.return_date := return_date;
     TripPlanRequest.adults := 2;
     TripPlanRequest.children := 0;
     TripPlanRequest.hotel_preferences := None;
     TripPlanRequest.max_total_budget := max_total_budget |}.

(** ** The outcome of the searches, without the events

    What a search leg finds is a function of the collaborators alone;
    the lemmas below relate the legs of [plan_trip] to these outcomes. *)

Section Outcomes.

Context {C : Collaborators}.

(** the records of one flight search, or the exception that the call
    or the construction of a record raises *)
Definition found_flights (q : FlightQuery.t) : Res (list FlightInfo.t) :=
  res_bind (get_flights q) (fun result =>
  res_map FlightInfo_of_raw (FlightsResult.flights result)).

Definition found_hotels (req : TripPlanRequest.t) : Res (list HotelInfo.t) :=
  res_bind (get_hotels (hotel_query req)) (fun hotel_result =>
  Ret (map HotelInfo_of_raw (HotelsResult.hotels hotel_result))).

(** the flights of one return variant, none when the variant fails *)
Definition variant_flights (req : TripPlanRequest.t) (rdate trip_type : string)
  : list FlightInfo.t :=
  match found_flights (return_query req rdate trip_type) with
  | Ret fl => fl
  | Raise _ => []
  end.

(** the events of one return variant: the call, and the warning when
    the variant fails *)
Definition variant_events (req : TripPlanRequest.t) (rdate trip_type : string)
  : list Event :=
  CallGetFlights (return_query req rdate trip_type)
  :: match found_flights (return_query req rdate trip_type) with
     | Ret _ => []
     | Raise e =>
         [Logged WARNING ("Return flight search error for trip_type " ++ trip_type
                          ++ " in /trip/plan: " ++ str_exc e)]
     end.

(** all the flights of the successful return variants, in the order
    of the variants *)
Definition return_flights (req : TripPlanRequest.t) : list FlightInfo.t :=
  match TripPlanRequest.return_date req with
  | Some rdate =>
      if truthy_str rdate then flat_map (variant_flights req rdate) trip_types else []
  | None => []
  end.

Definition return_events (req : TripPlanRequest.t) : list Event :=
  match TripPlanRequest.return_date req with
  | Some rdate =>
      if truthy_str rdate then flat_map (variant_events req rdate) trip_types else []
  | None => []
  end.

(** the state of the return loop once the flights [best] was selected
    from have been seen *)
Definition state_after (best : option FlightInfo.t) : ReturnState :=
  match best with
  | Some c => (FlightInfo.price c, Some c)
  | None => (None, None)
  end.

(** the events up to and including the hotel search, when the
    outbound leg succeeds *)
Definition events_to_hotels (req : TripPlanRequest.t) : list Event :=
  (CallGetFlights (outbound_query req)
   :: return_events req ++ [CallGetHotels (hotel_query req)])%list.

(** the flight searches and the hotel searches recorded in a trace *)
Definition flight_calls (tr : list Event) : list FlightQuery.t :=
  flat_map (fun ev => match ev with CallGetFlights q => [q] | _ => [] end) tr.

Definition hotel_calls (tr : list Event) : list HotelQuery.t :=
  flat_map (fun ev => match ev with CallGetHotels q => [q] | _ => [] end) tr.

End Outcomes.

(** ** Words of the specification, for the statements below *)

Definition not_price_char (c : ascii) : bool := negb (is_price_char c).

(** [post] does not go on with a character of the class *)
Definition stops_run (post : string) : Prop :=
  match post with
  | EmptyString => True
  | String c _ => is_price_char c = false
  end.

(** the value of the decimal literal [ip.fp] *)
Definition decimal_value (ip fp : string) : Q :=
  (inject_Z (digits_val 0 ip)
   + inject_Z (digits_val 0 fp) / inject_Z (Zpos (pow10 (String.length fp))))%Q.

(** a number below zero *)
Definition negative_number (v : PyVal) : Prop :=
  match v with
  | PyInt z => z < 0
  | PyFloat q => (q < 0)%Q
  | _ => False
  end.

Definition priced_flight (name : string) (price : option Q) : FlightInfo.t :=
  {| FlightInfo.name := name;
     FlightInfo.departure := "10:00 AM";
     FlightInfo.arrival := "12:00 PM";
     FlightInfo.arrival_time_ahead := None;
     FlightInfo.duration := None;
     FlightInfo.stops := Some 0;
     FlightInfo.delay := None;
     FlightInfo.price := price;
     FlightInfo.is_best := None |}.

(** the four prices 200, none, 150, 300 *)
Definition sample_flights : list FlightInfo.t :=
  [priced_flight "A" (Some 200%Q); priced_flight "B" None;
   priced_flight "C" (Some 150%Q); priced_flight "D" (Some 300%Q)].

(** the price of the record selected, zero when no record is selected or
    when it has no price *)
Definition price_or_zero {A} `{Priced A} (best : option A) : Q :=
  match best with
  | Some x => match price_of x with Some p => p | None => 0%Q end
  | None => 0%Q
  end.

(** The hotel filter in one predicate: the conjunction of the three
    guarded tests of [filter_hotels]. *)
Definition keeps (pr : HotelPreferences.t) (h : HotelInfo.t) : bool :=
  match HotelPreferences.star_rating pr with
  | Some s => if truthy_int s then rating_ok s h else true
  | None => true
  end
  && match HotelPreferences.max_price_per_night pr with
     | Some m => if truthy_float m then price_ok m h else true
     | None => true
     end
  && match HotelPreferences.amenities pr with
     | Some ((_ :: _) as wanted) => amenities_ok wanted h
     | Some [] | None => true
     end.

(** The hotel filter in the words of the specification: rating at least
    [star_rating] when it is specified, price at most
    [max_price_per_night] when it is specified, every required amenity
    among the amenities of the hotel, a hotel without amenities data
    failing when some amenity is required. *)
Definition spec_keeps (pr : HotelPreferences.t) (h : HotelInfo.t) : bool :=
  match HotelPreferences.star_rating pr with
  | Some s =>
      match HotelInfo.rating h with
      | Some r => Qle_bool (inject_Z s) r
      | None => false
      end
  | None => true
  end
  && match HotelPreferences.max_price_per_night pr with
     | Some m =>
         match HotelInfo.price h with
         | Some p => Qle_bool p m
         | None => false
         end
     | None => true
     end
  && match HotelPreferences.amenities pr with
     | Some ((_ :: _) as wanted) =>
         match HotelInfo.amenities h with
         | Some have => forallb (fun a => str_in a have) wanted
         | None => false
         end
     | Some [] | None => true
     end.

Definition spec_filter_hotels (pr : HotelPreferences.t) (hotels : list HotelInfo.t)
  : list HotelInfo.t :=
  filter (spec_keeps pr) hotels.

(** the hotel of the examples: rating 3, price 120, Wi-Fi *)
Definition hotel_3_120 : HotelInfo.t :=
  {| HotelInfo.name := "Hotel du Nord";
     HotelInfo.price := Some 120%Q;
     HotelInfo.rating := Some 3%Q;
     HotelInfo.url := None;
     HotelInfo.amenities := Some ["Wi-Fi"] |}.

(** a hotel that costs nothing *)
Definition hotel_free : HotelInfo.t :=
  {| HotelInfo.name := "Refuge";
     HotelInfo.price := Some 0%Q;
     HotelInfo.rating := Some 4%Q;
     HotelInfo.url := None;
     HotelInfo.amenities := Some ["Wi-Fi"] |}.

Definition prefs (star_rating : option Z) (max_price_per_night : option Q)
           (amenities : option (list string)) : HotelPreferences.t :=
  {| HotelPreferences.star_rating := star_rating;
     HotelPreferences.max_price_per_night := max_price_per_night;
     HotelPreferences.amenities := amenities |}.

Definition set_return_date (req : TripPlanRequest.t) (r : option string)
  : TripPlanRequest.t :=
  {| TripPlanRequest.origin := TripPlanRequest.origin req;
     TripPlanRequest.destination := TripPlanRequest.destination req;
     TripPlanRequest.depart_date := TripPlanRequest.depart_date req;
     TripPlanRequest.return_date := r;
     TripPlanRequest.adults := TripPlanRequest.adults req;
     TripPlanRequest.children := TripPlanRequest.children req;
     TripPlanRequest.hotel_preferences := TripPlanRequest.hotel_preferences req;
     TripPlanRequest.max_total_budget := TripPlanRequest.max_total_budget req |}.

(** ** The hotel search endpoint *)

Module HotelSearchRequest.
Record t : Type := mk {
  checkin_date : string;
  checkout_date : string;
  location : string;
  adults : Z;
  children : Z;
  fetch_mode : string;
  limit : Z;
  debug : bool
}.
End HotelSearchRequest.

Module HotelSearchResponse.
Record t : Type := mk {
  hotels : list HotelInfo.t;
  lowest_price : option Q;
  current_price : option Q
}.
End HotelSearchResponse.

Section SearchEndpoints.

Context {C : Collaborators}.

(** the arguments [search_hotels] hands to [get_hotels] *)
Definition hotel_search_query (req : HotelSearchRequest.t) : HotelQuery.t :=
  {| HotelQuery.checkin_date := HotelSearchRequest.checkin_date req;
     HotelQuery.checkout_date := HotelSearchRequest.checkout_date req;
     HotelQuery.location := HotelSearchRequest.location req;
     HotelQuery.adults := HotelSearchRequest.adults req;
     HotelQuery.children := HotelSearchRequest.children req;
     HotelQuery.fetch_mode := HotelSearchRequest.fetch_mode req;
     HotelQuery.debug := HotelSearchRequest.debug req;
     HotelQuery.limit := HotelSearchRequest.limit req |}.

(** [/hotels/search] *)
Definition search_hotels (req : HotelSearchRequest.t) : M HotelSearchResponse.t :=
  try_except
    (result <- call_get_hotels (hotel_search_query req) ;;
     let hotels := map HotelInfo_of_raw (HotelsResult.hotels result) in
     ret {| HotelSearchResponse.hotels := hotels;
            HotelSearchResponse.lowest_price := HotelsResult.lowest_price result;
            HotelSearchResponse.current_price := HotelsResult.current_price result |})
    (fun e =>
       logging ERROR ("Hotel search error: " ++ str_exc e) ;;;
       raise (HTTPException 400 (str_exc e))).

(** the arguments [search_flights] hands to [get_flights] *)
Definition flight_search_query (req : FlightSearchRequest.t) : FlightQuery.t :=
  {| FlightQuery.date := FlightSearchRequest.date req;
     FlightQuery.from_airport := FlightSearchRequest.from_airport req;
     FlightQuery.to_airport := FlightSearchRequest.to_airport req;
     FlightQuery.trip := FlightSearchRequest.trip req;
     FlightQuery.seat := FlightSearchRequest.seat req;
     FlightQuery.adults := FlightSearchRequest.adults req;
     FlightQuery.children := FlightSearchRequest.children req;
     FlightQuery.infants_in_seat := FlightSearchRequest.infants_in_seat req;
     FlightQuery.infants_on_lap := FlightSearchRequest.infants_on_lap req;
     FlightQuery.fetch_mode := FlightSearchRequest.fetch_mode req |}.

End SearchEndpoints.




(** the [/flights/search] request that asks what the outbound leg of
    [plan_trip] asks *)
Definition as_flight_search (req : TripPlanRequest.t) : FlightSearchRequest.t :=
  {| FlightSearchRequest.date := TripPlanRequest.depart_date req;
     FlightSearchRequest.from_airport := TripPlanRequest.origin req;
     FlightSearchRequest.to_airport := TripPlanRequest.destination req;
     FlightSearchRequest.trip := "one-way";
     FlightSearchRequest.seat := "economy";
     FlightSearchRequest.adults := TripPlanRequest.adults req;
     FlightSearchRequest.children := TripPlanRequest.children req;
     FlightSearchRequest.infants_in_seat := 0;
     FlightSearchRequest.infants_on_lap := 0;
     FlightSearchRequest.fetch_mode := "local" |}.


(** the preferences of a request hold of a hotel *)
Definition preferred (req : TripPlanRequest.t) (h : HotelInfo.t) : bool :=
  match TripPlanRequest.hotel_preferences req with
  | Some pr => keeps pr h
  | None => true
  end.

(** three nights in Paris, at most 150 a night *)
Definition a_request_150 : TripPlanRequest.t :=
  {| TripPlanRequest.origin := "LHR";
     TripPlanRequest.destination := "CDG";
     TripPlanRequest.depart_date := "2025-06-24";
     TripPlanRequest.return_date := Some "2025-06-27";
     TripPlanRequest.adults := 2;
     TripPlanRequest.children := 0;
     TripPlanRequest.hotel_preferences := Some (prefs None (Some 150%Q) None);
     TripPlanRequest.max_total_budget := None |}.

(** the [/hotels/search] request that asks what the hotel leg of
    [plan_trip] asks *)
Definition as_hotel_search (req : TripPlanRequest.t) : HotelSearchRequest.t :=
  {| HotelSearchRequest.checkin_date := TripPlanRequest.depart_date req;
     HotelSearchRequest.checkout_date :=
       match TripPlanRequest.return_date req with
       | Some r => if truthy_str r then r else TripPlanRequest.depart_date req
       | None => TripPlanRequest.depart_date req
       end;
     HotelSearchRequest.location := TripPlanRequest.destination req;
     HotelSearchRequest.adults := TripPlanRequest.adults req;
     HotelSearchRequest.children := TripPlanRequest.children req;
     HotelSearchRequest.fetch_mode := "live";
     HotelSearchRequest.limit := 10;
     HotelSearchRequest.debug := false |}.

(** the cheaper of two selections, the first one on a tie *)
Definition cheaper_first {A} `{Priced A} (a b : option A) : option A :=
  match a, b with
  | Some x, Some y =>
      if Qltb (price_or_zero (Some y)) (price_or_zero (Some x)) then Some y
      else Some x
  | Some x, None => Some x
  | None, _ => b
  end.

(** * Properties *)

(** ** Comparisons and truth values *)

Lemma Qltb_lt (x y : Q) : Qltb x y = true <-> (x < y)%Q.
Proof.
  unfold Qltb. rewrite negb_true_iff. split.
  - intro H. apply Qnot_le_lt. intro L.
    apply Qle_bool_iff in L. congruence.
  - intro H. destruct (Qle_bool y x) eqn:E; [|reflexivity].
    apply Qle_bool_iff in E. exfalso. apply (Qlt_not_le _ _ H E).
Qed.

Lemma Qltb_ge (x y : Q) : Qltb x y = false <-> (y <= x)%Q.
Proof.
  unfold Qltb. rewrite negb_false_iff. apply Qle_bool_iff.
Qed.

Lemma truthy_float_iff (q : Q) : truthy_float q = true <-> ~ (q == 0)%Q.
Proof.
  unfold truthy_float. rewrite negb_true_iff. split.
  - intros H E. apply Qeq_bool_iff in E. congruence.
  - intro H. destruct (Qeq_bool q 0) eqn:E; [|reflexivity].
    apply Qeq_bool_iff in E. contradiction.
Qed.

Lemma truthy_float_false (q : Q) : truthy_float q = false <-> (q == 0)%Q.
Proof.
  unfold truthy_float. rewrite negb_false_iff. apply Qeq_bool_iff.
Qed.

(** ** Selection by price *)

Section Selection.

Context {A : Type} `{Priced A}.

Lemma in_priced (l : list A) (p : Q) (x : A) :
  In (p, x) (priced l) <-> In x l /\ price_of x = Some p.
Proof.
  induction l as [|y l IH]; simpl.
  - tauto.
  - destruct (price_of y) as [q|] eqn:E; simpl; rewrite IH; split.
    + intros [K|[K1 K2]]; [inversion K; subst; auto | auto].
    + intros [[K|K] K2]; [subst; left; congruence | auto].
    + intros [K1 K2]; auto.
    + intros [[K|K] K2]; [subst; congruence | auto].
Qed.

Lemma priced_nil (l : list A) :
  priced l = [] <-> forall x, In x l -> price_of x = None.
Proof.
  induction l as [|y l IH]; simpl.
  - split; [intros _ x [] | reflexivity].
  - destruct (price_of y) as [q|] eqn:E.
    + split; [discriminate|].
      intro K. specialize (K y (or_introl eq_refl)). congruence.
    + rewrite IH. split.
      * intros K x [<-|Hx]; auto.
      * intros K x Hx. apply K. now right.
Qed.

(** a split of the keyed list comes from a split of the list *)
Lemma priced_split (l : list A) (a b : list (Q * A)) (p : Q) (x : A) :
  priced l = (a ++ (p, x) :: b)%list ->
  exists l1 l2, l = (l1 ++ x :: l2)%list /\ priced l1 = a /\ priced l2 = b
                /\ price_of x = Some p.
Proof.
  revert a. induction l as [|y l IH]; intros a E; simpl in E.
  - destruct a; discriminate.
  - destruct (price_of y) as [q|] eqn:Ey.
    + destruct a as [|c a]; simpl in E.
      * inversion E; subst. exists [], l. simpl. auto.
      * inversion E; subst.
        destruct (IH a H2) as (l1 & l2 & -> & <- & <- & Hp).
        exists (y :: l1), l2. simpl. rewrite Ey. auto.
    + destruct (IH a E) as (l1 & l2 & -> & <- & <- & Hp).
      exists (y :: l1), l2. simpl. rewrite Ey. auto.
Qed.

(** the scan keeps the first of the smallest keys *)
Lemma min_scan_first (l : list (Q * A)) (best : Q * A) :
  (min_scan best l = best /\ forall y, In y l -> (fst best <= fst y)%Q)
  \/ exists l1 l2,
       l = (l1 ++ min_scan best l :: l2)%list
       /\ (fst (min_scan best l) < fst best)%Q
       /\ (forall y, In y l1 -> (fst (min_scan best l) < fst y)%Q)
       /\ (forall y, In y l2 -> (fst (min_scan best l) <= fst y)%Q).
Proof.
  revert best. induction l as [|y l IH]; intro best; simpl.
  - left. split; [reflexivity | intros y []].
  - destruct (Qltb (fst y) (fst best)) eqn:E.
    + apply Qltb_lt in E. right.
      destruct (IH y) as [[E1 K]|(l1 & l2 & E1 & Lt & K1 & K2)].
      * exists [], l. rewrite E1. simpl. repeat split; auto.
        intros z [].
      * exists (y :: l1), l2. simpl. rewrite <- E1. repeat split; auto.
        -- eapply Qlt_trans; eauto.
        -- intros z [<-|Hz]; auto.
    + apply Qltb_ge in E.
      destruct (IH best) as [[E1 K]|(l1 & l2 & E1 & Lt & K1 & K2)].
      * left. split; auto. intros z [<-|Hz]; auto.
      * right. exists (y :: l1), l2. simpl. rewrite <- E1. repeat split; auto.
        intros z [<-|Hz]; auto.
        eapply Qlt_le_trans; eauto.
Qed.

(** [best_by_price] answers [None] on a list without a price, and
    otherwise the first record whose price no other record beats *)
Lemma best_by_price_first (l : list A) :
  match best_by_price l with
  | None => forall x, In x l -> price_of x = None
  | Some x =>
      exists l1 l2 p,
        l = (l1 ++ x :: l2)%list /\ price_of x = Some p
        /\ (forall y q, In y l1 -> price_of y = Some q -> (p < q)%Q)
        /\ (forall y q, In y l2 -> price_of y = Some q -> (p <= q)%Q)
  end.
Proof.
  unfold best_by_price, py_min.
  destruct (priced l) as [|[p0 x0] r] eqn:E.
  - now apply priced_nil.
  - destruct (min_scan_first r (p0, x0)) as [[E1 K]|(r1 & r2 & E1 & Lt & K1 & K2)].
    + rewrite E1. simpl.
      destruct (priced_split l [] r p0 x0 E) as (l1 & l2 & -> & P1 & P2 & Hp).
      exists l1, l2, p0. repeat split; auto.
      * intros y q Hy Hq.
        assert (In (q, y) (priced l1)) as K' by (apply in_priced; auto).
        rewrite P1 in K'. destruct K'.
      * intros y q Hy Hq.
        assert (In (q, y) (priced l2)) as K' by (apply in_priced; auto).
        rewrite P2 in K'. apply (K _ K').
    + destruct (min_scan (p0, x0) r) as [p x] eqn:Em. simpl in *.
      rewrite E1 in E.
      destruct (priced_split l ((p0, x0) :: r1) r2 p x E)
        as (l1 & l2 & -> & P1 & P2 & Hp).
      exists l1, l2, p. repeat split; auto.
      * intros y q Hy Hq.
        assert (In (q, y) (priced l1)) as K' by (apply in_priced; auto).
        rewrite P1 in K'. destruct K' as [K'|K'].
        -- inversion K'; subst. exact Lt.
        -- apply (K1 _ K').
      * intros y q Hy Hq.
        assert (In (q, y) (priced l2)) as K' by (apply in_priced; auto).
        rewrite P2 in K'. apply (K2 _ K').
Qed.

End Selection.

(** ** The scan over a concatenation *)

Section Scan.

Context {A : Type} `{Priced A}.

Lemma priced_app (l1 l2 : list A) :
  priced (l1 ++ l2) = (priced l1 ++ priced l2)%list.
Proof.
  induction l1 as [|x l1 IH]; simpl; [reflexivity|].
  destruct (price_of x); simpl; now rewrite IH.
Qed.

Lemma min_scan_app (a b : list (Q * A)) (best : Q * A) :
  min_scan best (a ++ b) = min_scan (min_scan best a) b.
Proof.
  revert best. induction a as [|y a IH]; intro best; simpl; auto.
Qed.

(** scanning a list from a running minimum is scanning it alone and
    comparing once *)
Lemma min_scan_cons (s : list (Q * A)) (y best : Q * A) :
  min_scan best (y :: s)
  = if Qltb (fst (min_scan y s)) (fst best) then min_scan y s else best.
Proof.
  revert y best. induction s as [|z s IH]; intros y best.
  - reflexivity.
  - change (min_scan best (y :: z :: s))
      with (min_scan (if Qltb (fst y) (fst best) then y else best) (z :: s)).
    change (min_scan y (z :: s))
      with (min_scan (if Qltb (fst z) (fst y) then z else y) s).
    rewrite (IH z (if Qltb (fst y) (fst best) then y else best)).
    change (min_scan (if Qltb (fst z) (fst y) then z else y) s)
      with (min_scan y (z :: s)).
    rewrite (IH z y).
    set (m := min_scan z s).
    destruct (Qltb (fst y) (fst best)) eqn:E1;
      destruct (Qltb (fst m) (fst y)) eqn:E2;
      destruct (Qltb (fst m) (fst best)) eqn:E3;
      try rewrite E1; try rewrite E2; try rewrite E3; try reflexivity;
      repeat match goal with
        | K : Qltb _ _ = true |- _ => apply Qltb_lt in K
        | K : Qltb _ _ = false |- _ => apply Qltb_ge in K
        end; exfalso; lra.
Qed.

Lemma in_priced_key (l : list A) (y : Q * A) :
  In y (priced l) -> price_of (snd y) = Some (fst y).
Proof.
  destruct y as [p x]. intro K. now apply in_priced in K.
Qed.

Lemma min_scan_in (l : list (Q * A)) (best : Q * A) :
  In (min_scan best l) (best :: l).
Proof.
  revert best. induction l as [|y l IH]; intro best; simpl.
  - now left.
  - destruct (IH (if Qltb (fst y) (fst best) then y else best)) as [K|K].
    + rewrite <- K. destruct (Qltb (fst y) (fst best)); auto.
    + auto.
Qed.

(** the record selected carries a price, the key it was selected by *)
Lemma best_by_price_priced (l : list A) (x : A) :
  best_by_price l = Some x ->
  exists p, price_of x = Some p
            /\ match priced l with
               | [] => False
               | y :: r => min_scan y r = (p, x)
               end.
Proof.
  unfold best_by_price, py_min.
  destruct (priced l) as [|y r] eqn:E; [discriminate|].
  intro K. inversion K; subst.
  pose proof (min_scan_in r y) as I. rewrite <- E in I.
  apply in_priced_key in I.
  exists (fst (min_scan y r)). split; [exact I|].
  now destruct (min_scan y r).
Qed.

End Scan.

(** ** The return leg *)

Section ReturnLeg.

Context {C : Collaborators}.

Lemma update_best_app (prev cur : list FlightInfo.t) :
  update_best (state_after (best_by_price prev)) (best_by_price cur)
  = state_after (best_by_price (prev ++ cur)).
Proof.
  destruct (best_by_price cur) as [c|] eqn:Ec.
  - destruct (best_by_price_priced cur c Ec) as (pc & Hpc & Mc).
    destruct (priced cur) as [|y s] eqn:Pc; [contradiction|].
    destruct (best_by_price prev) as [b|] eqn:Eb.
    + destruct (best_by_price_priced prev b Eb) as (pb & Hpb & Mb).
      destruct (priced prev) as [|x r] eqn:Pp; [contradiction|].
      unfold best_by_price, py_min. rewrite priced_app, Pp, Pc.
      cbn [app]. rewrite min_scan_app, min_scan_cons, Mb, Mc.
      unfold update_best, state_after. simpl fst.
      change (FlightInfo.price c) with (price_of c).
      change (FlightInfo.price b) with (price_of b).
      rewrite Hpc, Hpb. simpl below.
      change (price_of c) with (FlightInfo.price c) in Hpc.
      change (price_of b) with (FlightInfo.price b) in Hpb.
      destruct (Qltb pc pb); simpl; [now rewrite Hpc | now rewrite Hpb].
    + unfold best_by_price, py_min in Eb |- *. rewrite priced_app, Pc.
      destruct (priced prev) as [|x r]; [|discriminate].
      cbn [app]. rewrite Mc.
      unfold update_best, state_after. simpl.
      change (FlightInfo.price c) with (price_of c). rewrite Hpc. reflexivity.
  - unfold best_by_price, py_min in Ec |- *.
    destruct (priced cur) as [|y s] eqn:Pc; [|discriminate].
    rewrite priced_app, Pc, app_nil_r.
    destruct (priced prev); reflexivity.
Qed.

Lemma search_best_run (q : FlightQuery.t) (tr : list Event) :
  search_best q tr
  = ((tr ++ [CallGetFlights q])%list,
     res_bind (found_flights q) (fun fl => Ret (best_by_price fl))).
Proof.
  unfold search_best, bind, call_get_flights, lift, ret, found_flights.
  destruct (get_flights q) as [result|e]; simpl; [|reflexivity].
  destruct (res_map FlightInfo_of_raw (FlightsResult.flights result));
    reflexivity.
Qed.

(** one turn of the loop: it never raises, it performs the events of
    its variant and it merges the flights of its variant *)
Lemma return_variant_run (req : TripPlanRequest.t) (rdate t : string)
      (prev : list FlightInfo.t) (tr : list Event) :
  return_variant req rdate (state_after (best_by_price prev)) t tr
  = ((tr ++ variant_events req rdate t)%list,
     Ret (state_after (best_by_price (prev ++ variant_flights req rdate t)))).
Proof.
  unfold return_variant, try_except, bind. rewrite search_best_run.
  unfold variant_events, variant_flights.
  destruct (found_flights (return_query req rdate t)) as [fl|e]; simpl.
  - unfold ret. now rewrite update_best_app.
  - unfold logging, ret. rewrite <- app_assoc, app_nil_r. reflexivity.
Qed.

Lemma for_each_return_run (req : TripPlanRequest.t) (rdate : string)
      (l : list string) (prev : list FlightInfo.t) (tr : list Event) :
  for_each l (return_variant req rdate) (state_after (best_by_price prev)) tr
  = ((tr ++ flat_map (variant_events req rdate) l)%list,
     Ret (state_after
            (best_by_price (prev ++ flat_map (variant_flights req rdate) l)))).
Proof.
  revert prev tr. induction l as [|t l IH]; intros prev tr.
  - simpl. unfold ret. now rewrite !app_nil_r.
  - cbn [for_each flat_map]. unfold bind at 1.
    rewrite return_variant_run, IH, <- !app_assoc. reflexivity.
Qed.

Lemma snd_state_after (best : option FlightInfo.t) :
  snd (state_after best) = best.
Proof. now destruct best. Qed.

(** the whole return leg *)
Lemma return_leg_run (req : TripPlanRequest.t) (tr : list Event) :
  return_leg req tr
  = ((tr ++ return_events req)%list, Ret (best_by_price (return_flights req))).
Proof.
  unfold return_leg, return_events, return_flights.
  destruct (TripPlanRequest.return_date req) as [rdate|].
  - destruct (truthy_str rdate).
    + unfold bind.
      change (@pair (option Q) (option FlightInfo.t) None None)
        with (state_after (best_by_price (@nil FlightInfo.t))).
      rewrite for_each_return_run. unfold ret.
      now rewrite snd_state_after.
    + unfold ret. now rewrite app_nil_r.
  - unfold ret. now rewrite app_nil_r.
Qed.

End ReturnLeg.

(** ** The legs and the whole run of [plan_trip] *)

Section Run.

Context {C : Collaborators}.

Lemma outbound_leg_run (req : TripPlanRequest.t) (tr : list Event) :
  outbound_leg req tr
  = match found_flights (outbound_query req) with
    | Ret fl =>
        ((tr ++ [CallGetFlights (outbound_query req)])%list,
         Ret (best_by_price fl))
    | Raise e =>
        ((tr ++ [CallGetFlights (outbound_query req);
                 Logged ERROR ("Outbound flight search error in /trip/plan: "
                               ++ str_exc e)])%list,
         Raise (HTTPException 502 ("Outbound flight search failed: " ++ str_exc e)))
    end.
Proof.
  unfold outbound_leg, try_except. rewrite search_best_run.
  destruct (found_flights (outbound_query req)) as [fl|e]; simpl.
  - reflexivity.
  - unfold bind, logging, raise. now rewrite <- app_assoc.
Qed.

Lemma hotel_leg_run (req : TripPlanRequest.t) (tr : list Event) :
  hotel_leg req tr
  = match found_hotels req with
    | Ret hs =>
        ((tr ++ [CallGetHotels (hotel_query req)])%list,
         Ret (best_by_price
                (filter_hotels (TripPlanRequest.hotel_preferences req) hs)))
    | Raise e =>
        ((tr ++ [CallGetHotels (hotel_query req);
                 Logged ERROR ("Hotel search error in /trip/plan: " ++ str_exc e)])%list,
         Raise (HTTPException 502 ("Hotel search failed: " ++ str_exc e)))
    end.
Proof.
  unfold hotel_leg, try_except, bind, call_get_hotels, found_hotels.
  destruct (get_hotels (hotel_query req)) as [r|e]; simpl.
  - reflexivity.
  - unfold logging, raise. now rewrite <- app_assoc.
Qed.

Lemma compute_nights_raises (req : TripPlanRequest.t) (e : PyExc) :
  compute_nights req = Raise e -> exists m, e = ValueError m.
Proof.
  unfold compute_nights.
  destruct (TripPlanRequest.return_date req) as [r|]; [|discriminate].
  destruct (truthy_str r); [|discriminate].
  destruct (to_datetime r); [|intro K; inversion K; eauto].
  destruct (to_datetime (TripPlanRequest.depart_date req));
    [discriminate | intro K; inversion K; eauto].
Qed.

(** [plan_trip] in closed form: its four outcomes *)
Lemma plan_trip_run (req : TripPlanRequest.t) (tr : list Event) :
  plan_trip req tr
  = match found_flights (outbound_query req) with
    | Raise e =>
        ((tr ++ [CallGetFlights (outbound_query req);
                 Logged ERROR ("Outbound flight search error in /trip/plan: "
                               ++ str_exc e)])%list,
         Raise (HTTPException 502 ("Outbound flight search failed: " ++ str_exc e)))
    | Ret fl =>
        match found_hotels req with
        | Raise e =>
            ((tr ++ events_to_hotels req
                 ++ [Logged ERROR ("Hotel search error in /trip/plan: "
                                   ++ str_exc e)])%list,
             Raise (HTTPException 502 ("Hotel search failed: " ++ str_exc e)))
        | Ret hs =>
            match compute_nights req with
            | Raise e =>
                ((tr ++ events_to_hotels req
                     ++ [Logged ERROR ("Trip plan error: " ++ str_exc e)])%list,
                 Raise (HTTPException 400 (str_exc e)))
            | Ret n =>
                ((tr ++ events_to_hotels req)%list,
                 Ret (assemble req (best_by_price fl)
                        (best_by_price (return_flights req))
                        (best_by_price
                           (filter_hotels (TripPlanRequest.hotel_preferences req) hs))
                        n))
            end
        end
    end.
Proof.
  unfold plan_trip, try_except, bind at 1. rewrite outbound_leg_run.
  destruct (found_flights (outbound_query req)) as [fl|e].
  - unfold bind at 1. rewrite return_leg_run.
    unfold bind at 1. rewrite hotel_leg_run.
    unfold events_to_hotels.
    destruct (found_hotels req) as [hs|e].
    + unfold bind, lift.
      destruct (compute_nights req) as [n|e] eqn:En.
      * unfold ret. simpl. now rewrite <- !app_assoc.
      * destruct (compute_nights_raises req e En) as [m ->].
        unfold logging, raise. simpl. now rewrite <- !app_assoc.
    + unfold raise. simpl. now rewrite <- !app_assoc.
  - reflexivity.
Qed.

End Run.

(** ** The regular expression and [float] *)

Lemma take_while_app (p : ascii -> bool) (m post : string) :
  str_forall p m = true ->
  match post with EmptyString => True | String c _ => p c = false end ->
  take_while p (m ++ post) = m.
Proof.
  intros Hm Hp. induction m as [|c m IH]; simpl in *.
  - destruct post as [|c r]; simpl; [reflexivity | now rewrite Hp].
  - apply andb_true_iff in Hm as [Hc Hm]. rewrite Hc. now rewrite IH.
Qed.

Lemma drop_while_app (p : ascii -> bool) (m post : string) :
  str_forall p m = true ->
  match post with EmptyString => True | String c _ => p c = false end ->
  drop_while p (m ++ post) = post.
Proof.
  intros Hm Hp. induction m as [|c m IH]; simpl in *.
  - destruct post as [|c r]; simpl; [reflexivity | now rewrite Hp].
  - apply andb_true_iff in Hm as [Hc Hm]. rewrite Hc. now apply IH.
Qed.

Lemma str_app_nil_r (s : string) : s ++ "" = s.
Proof. induction s; simpl; congruence. Qed.

Lemma re_search_price_none (s : string) :
  re_search_price s = None <-> str_forall not_price_char s = true.
Proof.
  induction s as [|c s IH]; simpl.
  - tauto.
  - unfold not_price_char at 1. destruct (is_price_char c); simpl.
    + split; discriminate.
    + exact IH.
Qed.

(** the match is the first run of the class, taken as long as it goes *)
Lemma re_search_price_run (pre m post : string) :
  str_forall not_price_char pre = true ->
  str_forall is_price_char m = true -> m <> "" -> stops_run post ->
  re_search_price (pre ++ m ++ post) = Some m.
Proof.
  intros Hpre Hm Hne Hpost. induction pre as [|c pre IH]; simpl in *.
  - destruct m as [|c m]; [congruence|]. simpl in *.
    apply andb_true_iff in Hm as [Hc Hm]. rewrite Hc.
    now rewrite (take_while_app is_price_char m post Hm Hpost).
  - apply andb_true_iff in Hpre as [Hc Hpre].
    unfold not_price_char in Hc. apply negb_true_iff in Hc. rewrite Hc. auto.
Qed.

Lemma is_digit_val (c : ascii) : is_digit c = true -> 0 <= digit_val c <= 9.
Proof.
  unfold is_digit, digit_val. intro K.
  apply andb_true_iff in K as [K1 K2].
  apply N.leb_le in K1, K2. lia.
Qed.

Lemma digits_val_nonneg (s : string) (acc : Z) :
  str_forall is_digit s = true -> 0 <= acc -> 0 <= digits_val acc s.
Proof.
  revert acc. induction s as [|c s IH]; intros acc Hs Ha;
    cbn [digits_val str_forall] in *; [exact Ha|].
  apply andb_true_iff in Hs as [Hc Hs]. apply IH; [exact Hs|].
  pose proof (is_digit_val c Hc). lia.
Qed.

Lemma str_forall_app (p : ascii -> bool) (a b : string) :
  str_forall p (a ++ b) = str_forall p a && str_forall p b.
Proof.
  induction a as [|c a IH]; simpl; [reflexivity|].
  now rewrite IH, andb_assoc.
Qed.

Lemma take_while_forall (p : ascii -> bool) (s : string) :
  str_forall p (take_while p s) = true.
Proof.
  induction s as [|c s IH]; simpl; [reflexivity|].
  destruct (p c) eqn:E; simpl; [now rewrite E | reflexivity].
Qed.

(** a text that [float] accepts has a value that is not negative *)
Lemma py_float_nonneg (t : string) (q : Q) : py_float t = Ret q -> (0 <= q)%Q.
Proof.
  unfold py_float.
  pose proof (take_while_forall is_digit t) as Hip.
  destruct (drop_while is_digit t) as [|c fp].
  - destruct (str_empty (take_while is_digit t)); [discriminate|].
    intro K. inversion K; subst. unfold Qle. simpl.
    pose proof (digits_val_nonneg _ 0 Hip). lia.
  - destruct (Ascii.eqb c "." && str_forall is_digit fp
              && negb (str_empty (take_while is_digit t) && str_empty fp)) eqn:E;
      [|discriminate].
    apply andb_true_iff in E as [E _]. apply andb_true_iff in E as [_ Hfp].
    intro K. inversion K; subst. unfold Qle. simpl.
    assert (0 <= digits_val 0 (take_while is_digit t ++ fp)).
    { apply digits_val_nonneg; [|lia]. now rewrite str_forall_app, Hip, Hfp. }
    lia.
Qed.

Lemma digits_val_acc (s : string) (acc : Z) :
  digits_val acc s = acc * Zpos (pow10 (String.length s)) + digits_val 0 s.
Proof.
  revert acc. induction s as [|c s IH]; intro acc; cbn [digits_val].
  - simpl. lia.
  - rewrite (IH (10 * acc + digit_val c)), (IH (10 * 0 + digit_val c)).
    cbn [String.length pow10]. rewrite Pos2Z.inj_mul. ring.
Qed.

Lemma digits_val_app (a b : string) :
  digits_val 0 (a ++ b)
  = digits_val 0 a * Zpos (pow10 (String.length b)) + digits_val 0 b.
Proof.
  generalize 0 at 1 2. induction a as [|c a IH]; intro acc; simpl.
  - apply digits_val_acc.
  - apply IH.
Qed.

(** [float] on an integer literal and on a literal with a dot *)
Lemma py_float_integer (ip : string) :
  str_forall is_digit ip = true -> ip <> "" ->
  py_float ip = Ret (digits_val 0 ip # 1).
Proof.
  intros Hd Hne. unfold py_float.
  pose proof (take_while_app is_digit ip "" Hd I) as T.
  pose proof (drop_while_app is_digit ip "" Hd I) as D.
  rewrite str_app_nil_r in T, D. rewrite T, D.
  destruct ip; [congruence | reflexivity].
Qed.

Lemma py_float_decimal (ip fp : string) :
  str_forall is_digit ip = true -> str_forall is_digit fp = true ->
  (ip <> "" \/ fp <> "") ->
  py_float (ip ++ "." ++ fp)
  = Ret (digits_val 0 (ip ++ fp) # pow10 (String.length fp)).
Proof.
  intros Hi Hf Hne. unfold py_float.
  rewrite (take_while_app is_digit ip ("." ++ fp) Hi eq_refl).
  rewrite (drop_while_app is_digit ip ("." ++ fp) Hi eq_refl).
  simpl. rewrite Hf. simpl.
  destruct ip, fp; simpl; try reflexivity. destruct Hne; congruence.
Qed.

Lemma decimal_value_make (ip fp : string) :
  (digits_val 0 (ip ++ fp) # pow10 (String.length fp) == decimal_value ip fp)%Q.
Proof.
  unfold decimal_value.
  rewrite Qmake_Qdiv, digits_val_app, inject_Z_plus, inject_Z_mult.
  field. intro K.
  assert (inject_Z (Zpos (pow10 (String.length fp))) == inject_Z 0)%Q as K'
      by exact K.
  rewrite inject_Z_injective in K'. discriminate.
Qed.

Lemma parse_stops_returns (v : PyVal) : returns (_parse_stops v).
Proof.
  destruct v as [|b|z|q|s|r]; simpl; auto.
  unfold _parse_stops, py_int, py_int_of_str, res_bind.
  destruct (strip s) as [|c t]; simpl.
  - exact I.
  - destruct (Ascii.eqb c "-"); [|destruct (Ascii.eqb c "+")];
      match goal with |- context [int_body false ?b] =>
        destruct (int_body false b) end; exact I.
Qed.

(** ** The claims on the normalization helpers *)

(** C2 (the code does not do what the claim says).  [_parse_price] is
    not total: on a text whose first run of digits, dots and commas is
    no decimal literal, [float] raises and nothing catches the
    [ValueError]; so the construction of the record fails, and with it
    the whole list of results: [/flights/search] answers 400 and
    [/trip/plan] answers 502 though the other flight is well formed.
    Its sibling [_parse_stops], which runs under [try], returns on every
    value of [PyVal]. *)
Theorem parse_price_raises_on_malformed_text :
  _parse_price (PyStr "1.2.3")
  = Raise (ValueError "could not convert string to float: '1.2.3'")
  /\ _parse_price (PyStr "Price unavailable.")
     = Raise (ValueError "could not convert string to float: '.'")
  /\ raises (FlightInfo_of_raw (a_flight "BA 304" (PyStr "1.2.3")))
  /\ raises (res_map FlightInfo_of_raw
               [a_flight "AF 1681" (PyStr "$400");
                a_flight "BA 304" (PyStr "1.2.3")])
  /\ snd (@search_flights world_malformed a_flight_search [])
     = Raise (HTTPException 400 "could not convert string to float: '1.2.3'")
  /\ snd (@plan_trip world_malformed
            (a_request "2025-06-24" (Some "2025-06-27") None) [])
     = Raise (HTTPException 502
                "Outbound flight search failed: could not convert string to float: '1.2.3'")
  /\ (forall v : PyVal, returns (_parse_stops v)).
Proof.
  repeat split; try exact I. exact parse_stops_returns.
Qed.

(** C6, amended.  On a string, [_parse_price] answers null exactly when
    the string has no digit, dot or comma; otherwise it takes the first
    run of such characters, as long as it goes, drops the commas, and
    when what is left is a decimal literal it answers its value.  Every
    value that is not a string, a number or not, is returned unchanged
    (so [None] gives null, 42 gives 42, and a list gives the list). *)
Theorem parse_price_mapping :
  (forall s : string,
      _parse_price (PyStr s) = Ret PyNone <-> str_forall not_price_char s = true)
  /\ (forall pre m post ip : string,
         str_forall not_price_char pre = true ->
         str_forall is_price_char m = true -> m <> "" -> stops_run post ->
         remove_commas m = ip ->
         str_forall is_digit ip = true -> ip <> "" ->
         exists q, _parse_price (PyStr (pre ++ m ++ post)) = Ret (PyFloat q)
                   /\ (q == inject_Z (digits_val 0 ip))%Q)
  /\ (forall pre m post ip fp : string,
         str_forall not_price_char pre = true ->
         str_forall is_price_char m = true -> m <> "" -> stops_run post ->
         remove_commas m = ip ++ "." ++ fp ->
         str_forall is_digit ip = true -> str_forall is_digit fp = true ->
         (ip <> "" \/ fp <> "") ->
         exists q, _parse_price (PyStr (pre ++ m ++ post)) = Ret (PyFloat q)
                   /\ (q == decimal_value ip fp)%Q)
  /\ (forall v : PyVal, (forall s, v <> PyStr s) -> _parse_price v = Ret v)
  /\ (exists q, _parse_price (PyStr "$1,234.50") = Ret (PyFloat q)
                /\ (q == 1234.5)%Q)
  /\ _parse_price (PyInt 42) = Ret (PyInt 42)
  /\ _parse_price (PyStr "N/A") = Ret PyNone
  /\ _parse_price PyNone = Ret PyNone.
Proof.
  split; [|split; [|split; [|split; [|split; [|repeat split]]]]].
  - intro s. rewrite <- re_search_price_none. unfold _parse_price.
    destruct (re_search_price s) as [m|].
    + split; [|discriminate].
      destruct (py_float (remove_commas m)); discriminate.
    + tauto.
  - intros pre m post ip Hpre Hm Hne Hpost Hip Hd Hn.
    unfold _parse_price.
    rewrite (re_search_price_run pre m post Hpre Hm Hne Hpost), Hip.
    rewrite (py_float_integer ip Hd Hn). simpl.
    eexists. split; [reflexivity|]. reflexivity.
  - intros pre m post ip fp Hpre Hm Hne Hpost Hip Hi Hf Hn.
    unfold _parse_price.
    rewrite (re_search_price_run pre m post Hpre Hm Hne Hpost), Hip.
    rewrite (py_float_decimal ip fp Hi Hf Hn). simpl.
    eexists. split; [reflexivity|]. apply decimal_value_make.
  - intros v Hv. destruct v; try reflexivity. now destruct (Hv s).
  - eexists. split; [reflexivity|]. reflexivity.
Qed.

(** C8, amended.  In a flight record that was constructed, the price,
    when present, is not negative as soon as the collaborator did not
    deliver a negative number: a price read from a text carries no
    sign, and a number passes through unchanged. *)
Theorem flight_price_nonneg (raw : RawFlight.t) (fi : FlightInfo.t) (p : Q) :
  FlightInfo_of_raw raw = Ret fi ->
  FlightInfo.price fi = Some p ->
  ~ negative_number (RawFlight.price raw) ->
  (0 <= p)%Q.
Proof.
  unfold FlightInfo_of_raw. intros E Hp Hn.
  destruct (_parse_stops (RawFlight.stops raw)) as [sv|]; [|discriminate].
  cbn [res_bind] in E.
  destruct (_parse_price (RawFlight.price raw)) as [pv|] eqn:Ep; [|discriminate].
  cbn [res_bind] in E.
  destruct (validate_opt_int sv) as [st|]; [|discriminate].
  cbn [res_bind] in E.
  destruct (validate_opt_float pv) as [pr|] eqn:Ev; [|discriminate].
  cbn [res_bind] in E. inversion E; subst fi. cbn in Hp. subst pr.
  destruct (RawFlight.price raw) as [|b|z|q|s|r]; simpl in Ep, Hn.
  - inversion Ep; subst. discriminate.
  - inversion Ep; subst. simpl in Ev. inversion Ev; subst.
    destruct b; discriminate.
  - inversion Ep; subst. simpl in Ev. inversion Ev; subst.
    unfold Qle. simpl. lia.
  - inversion Ep; subst. simpl in Ev. inversion Ev; subst.
    now apply Qnot_lt_le.
  - destruct (re_search_price s) as [m|].
    + destruct (py_float (remove_commas m)) as [q|] eqn:Ef; [|discriminate].
      simpl in Ep. inversion Ep; subst. simpl in Ev. inversion Ev; subst.
      eapply py_float_nonneg; eauto.
    + inversion Ep; subst. discriminate.
  - inversion Ep; subst. discriminate.
Qed.

Lemma flight_price_nonneg_witness : (0 <= 123450 # 100)%Q.
Proof.
  apply (flight_price_nonneg
           (a_flight "BA 304" (PyStr "$1,234.50"))
           (FlightInfo.mk "BA 304" "10:00 AM" "12:00 PM" None (Some "2 hr")
                          (Some 0) None (Some (123450 # 100)%Q) None)
           (123450 # 100)%Q);
    [reflexivity | reflexivity | simpl; tauto].
Defined.

(** C8 as stated fails: a negative number that the collaborator
    delivers as the price passes through [_parse_price] and the
    validation, and the record carries it. *)
Lemma negative_price_passes_through :
  exists fi p,
    FlightInfo_of_raw (a_flight "BA 304" (PyInt (-5))) = Ret fi
    /\ FlightInfo.price fi = Some p
    /\ ~ (0 <= p)%Q.
Proof.
  eexists. exists (inject_Z (-5)). split; [reflexivity|]. split; [reflexivity|].
  unfold Qle. simpl. lia.
Qed.

(** C6 as stated fails on a value that is neither a number nor a
    string: it is returned as it is, not turned into null. *)
Lemma parse_price_keeps_other_objects :
  _parse_price (PyObj "[120, 'USD']") = Ret (PyObj "[120, 'USD']")
  /\ _parse_price (PyObj "[120, 'USD']") <> Ret PyNone.
Proof.
  split; [reflexivity | discriminate].
Qed.

(** ** Selection: the claim *)

Lemma plan_trip_returns_inv {C : Collaborators} (req : TripPlanRequest.t)
      (tr tr' : list Event) (resp : TripPlanResponse.t) :
  plan_trip req tr = (tr', Ret resp) ->
  exists fl hs n,
    found_flights (outbound_query req) = Ret fl
    /\ found_hotels req = Ret hs
    /\ compute_nights req = Ret n
    /\ tr' = (tr ++ events_to_hotels req)%list
    /\ resp = assemble req (best_by_price fl) (best_by_price (return_flights req))
                (best_by_price
                   (filter_hotels (TripPlanRequest.hotel_preferences req) hs)) n.
Proof.
  rewrite plan_trip_run.
  destruct (found_flights (outbound_query req)) as [fl|e]; [|discriminate].
  destruct (found_hotels req) as [hs|e]; [|discriminate].
  destruct (compute_nights req) as [n|e]; [|discriminate].
  intro K. inversion K; subst. exists fl, hs, n. auto.
Qed.

Lemma plan_trip_returns {C : Collaborators} (req : TripPlanRequest.t)
      (tr : list Event) (fl : list FlightInfo.t) (hs : list HotelInfo.t) (n : Z) :
  found_flights (outbound_query req) = Ret fl ->
  found_hotels req = Ret hs ->
  compute_nights req = Ret n ->
  plan_trip req tr
  = ((tr ++ events_to_hotels req)%list,
     Ret (assemble req (best_by_price fl) (best_by_price (return_flights req))
            (best_by_price
               (filter_hotels (TripPlanRequest.hotel_preferences req) hs)) n)).
Proof.
  intros E1 E2 E3. now rewrite plan_trip_run, E1, E2, E3.
Qed.

(** C5.  The record that [best_by_price] selects from a list of flight
    records is the first record whose price no other record of the list
    beats: it carries a price, every priced record before it is strictly
    dearer, every priced record after it is at least as dear; a list
    whose prices are all null gives no selection.  The prices 200, null,
    150, 300 select the record priced 150.  This is the selection that
    [plan_trip] makes for the outbound flight and for the return
    flights. *)
Theorem best_flight_is_first_cheapest :
  (forall fs : list FlightInfo.t,
      match best_by_price fs with
      | None => forall f, In f fs -> FlightInfo.price f = None
      | Some f =>
          exists l1 l2 p,
            fs = (l1 ++ f :: l2)%list /\ FlightInfo.price f = Some p
            /\ (forall g q, In g l1 -> FlightInfo.price g = Some q -> (p < q)%Q)
            /\ (forall g q, In g l2 -> FlightInfo.price g = Some q -> (p <= q)%Q)
      end)
  /\ (forall fs : list FlightInfo.t,
         (forall f, In f fs -> FlightInfo.price f = None) -> best_by_price fs = None)
  /\ best_by_price sample_flights = Some (priced_flight "C" (Some 150%Q))
  /\ best_by_price [priced_flight "A" None; priced_flight "B" None] = None
  /\ best_by_price [priced_flight "A" (Some 150%Q); priced_flight "B" (Some 200%Q);
                    priced_flight "C" (Some (300 # 2))]
     = Some (priced_flight "A" (Some 150%Q))
  /\ (forall (C : Collaborators) req tr tr' resp,
         plan_trip req tr = (tr', Ret resp) ->
         exists fl,
           found_flights (outbound_query req) = Ret fl
           /\ TripPlanResponse.best_outbound_flight resp = best_by_price fl
           /\ TripPlanResponse.best_return_flight resp
              = best_by_price (return_flights req)).
Proof.
  split; [|split; [|split; [|split; [|split]]]]; try reflexivity.
  - intro fs. exact (best_by_price_first fs).
  - intros fs K. pose proof (best_by_price_first fs) as B.
    destruct (best_by_price fs) as [f|]; [|reflexivity].
    destruct B as (l1 & l2 & p & -> & Hp & _).
    change (FlightInfo.price f = Some p) in Hp.
    rewrite (K f) in Hp; [discriminate|]. apply in_or_app. right. now left.
  - intros C req tr tr' resp E.
    destruct (plan_trip_returns_inv req tr tr' resp E)
      as (fl & hs & n & E1 & _ & _ & _ & ->).
    exists fl. auto.
Qed.

(** ** The hotel filter *)

Lemma filter_filter {A} (p q : A -> bool) (l : list A) :
  filter q (filter p l) = filter (fun x => p x && q x) l.
Proof.
  induction l as [|x l IH]; simpl; [reflexivity|].
  destruct (p x); simpl; [destruct (q x)|]; now rewrite IH.
Qed.

Lemma filter_true {A} (l : list A) : filter (fun _ => true) l = l.
Proof. induction l; simpl; congruence. Qed.

Lemma filter_hotels_keeps (pr : HotelPreferences.t) (hotels : list HotelInfo.t) :
  filter_hotels (Some pr) hotels = filter (keeps pr) hotels.
Proof.
  unfold filter_hotels, keeps.
  set (p1 := fun h : HotelInfo.t =>
               match HotelPreferences.star_rating pr with
               | Some s => if truthy_int s then rating_ok s h else true
               | None => true
               end).
  set (p2 := fun h : HotelInfo.t =>
               match HotelPreferences.max_price_per_night pr with
               | Some m => if truthy_float m then price_ok m h else true
               | None => true
               end).
  set (p3 := fun h : HotelInfo.t =>
               match HotelPreferences.amenities pr with
               | Some ((_ :: _) as wanted) => amenities_ok wanted h
               | Some [] | None => true
               end).
  transitivity (filter p3 (filter p2 (filter p1 hotels))).
  - assert (forall l, match HotelPreferences.star_rating pr with
                      | Some s => if truthy_int s then filter (rating_ok s) l else l
                      | None => l
                      end = filter p1 l) as K1.
    { intro l. unfold p1. destruct (HotelPreferences.star_rating pr) as [s|];
        [destruct (truthy_int s)|]; auto using filter_true. }
    assert (forall l, match HotelPreferences.max_price_per_night pr with
                      | Some m => if truthy_float m then filter (price_ok m) l else l
                      | None => l
                      end = filter p2 l) as K2.
    { intro l. unfold p2. destruct (HotelPreferences.max_price_per_night pr) as [m|];
        [destruct (truthy_float m)|]; auto using filter_true. }
    assert (forall l, match HotelPreferences.amenities pr with
                      | Some ((_ :: _) as wanted) => filter (amenities_ok wanted) l
                      | Some [] | None => l
                      end = filter p3 l) as K3.
    { intro l. unfold p3. destruct (HotelPreferences.amenities pr) as [[|a w]|];
        auto using filter_true. }
    now rewrite K1, K2, K3.
  - rewrite !filter_filter. apply filter_ext. intro h.
    unfold p1, p2, p3. now rewrite andb_assoc.
Qed.

Lemma truthy_int_iff (z : Z) : truthy_int z = true <-> z <> 0.
Proof.
  unfold truthy_int. rewrite negb_true_iff. apply Z.eqb_neq.
Qed.

Lemma str_in_iff (a : string) (l : list string) : str_in a l = true <-> In a l.
Proof.
  unfold str_in. rewrite existsb_exists. split.
  - intros (x & Hx & E). apply String.eqb_eq in E. now subst.
  - intro K. exists a. split; [exact K | apply String.eqb_refl].
Qed.

Lemma rating_ok_iff (s : Z) (h : HotelInfo.t) :
  rating_ok s h = true
  <-> exists r, HotelInfo.rating h = Some r /\ ~ (r == 0)%Q /\ (inject_Z s <= r)%Q.
Proof.
  unfold rating_ok. destruct (HotelInfo.rating h) as [r|].
  - rewrite andb_true_iff, truthy_float_iff, Qle_bool_iff. split.
    + intros [K1 K2]. exists r. auto.
    + intros (r' & E & K1 & K2). inversion E; subst. auto.
  - split; [discriminate | intros (r & E & _); discriminate].
Qed.

Lemma price_ok_iff (m : Q) (h : HotelInfo.t) :
  price_ok m h = true
  <-> exists p, HotelInfo.price h = Some p /\ ~ (p == 0)%Q /\ (p <= m)%Q.
Proof.
  unfold price_ok. destruct (HotelInfo.price h) as [p|].
  - rewrite andb_true_iff, truthy_float_iff, Qle_bool_iff. split.
    + intros [K1 K2]. exists p. auto.
    + intros (p' & E & K1 & K2). inversion E; subst. auto.
  - split; [discriminate | intros (p & E & _); discriminate].
Qed.

Lemma amenities_ok_iff (wanted : list string) (h : HotelInfo.t) :
  wanted <> [] ->
  amenities_ok wanted h = true
  <-> exists have, HotelInfo.amenities h = Some have
                   /\ forall a, In a wanted -> In a have.
Proof.
  intro Hne. unfold amenities_ok.
  destruct (HotelInfo.amenities h) as [[|b have]|].
  - split; [discriminate|]. intros (have & E & K). inversion E; subst.
    destruct wanted as [|a w]; [congruence|]. destruct (K a (or_introl eq_refl)).
  - rewrite forallb_forall. split.
    + intro K. exists (b :: have). split; [reflexivity|].
      intros a Ha. apply str_in_iff. now apply K.
    + intros (have' & E & K) a Ha. inversion E; subst.
      apply str_in_iff. now apply K.
  - split; [discriminate | intros (have & E & _); discriminate].
Qed.

(** C3, amended.  With preferences, [plan_trip] keeps exactly the hotels
    that pass three tests together, in the order they came: when
    [star_rating] is specified and not zero, the rating is present, not
    zero and at least [star_rating]; when [max_price_per_night] is
    specified and not zero, the price is present, not zero and at most
    [max_price_per_night]; when some amenity is required, the hotel has
    amenities data that contains every required amenity.  A preference
    that is zero or an empty list constrains nothing.  Where no
    preference, no rating and no price is zero, this is the filter of
    the specification.  The hotel with rating 3, price 120 and Wi-Fi is
    excluded by [star_rating] 4 and kept by [star_rating] 3, at most 150
    a night, Wi-Fi. *)
Theorem filter_hotels_conjunctive :
  (forall hotels, filter_hotels None hotels = hotels)
  /\ (forall pr hotels, filter_hotels (Some pr) hotels = filter (keeps pr) hotels)
  /\ (forall pr h,
         keeps pr h = true
         <-> (forall s, HotelPreferences.star_rating pr = Some s -> s <> 0 ->
                exists r, HotelInfo.rating h = Some r
                          /\ ~ (r == 0)%Q /\ (inject_Z s <= r)%Q)
             /\ (forall m, HotelPreferences.max_price_per_night pr = Some m ->
                   ~ (m == 0)%Q ->
                   exists p, HotelInfo.price h = Some p
                             /\ ~ (p == 0)%Q /\ (p <= m)%Q)
             /\ (forall wanted, HotelPreferences.amenities pr = Some wanted ->
                   wanted <> [] ->
                   exists have, HotelInfo.amenities h = Some have
                                /\ forall a, In a wanted -> In a have))
  /\ (forall pr h,
         (forall s, HotelPreferences.star_rating pr = Some s -> s <> 0) ->
         (forall m, HotelPreferences.max_price_per_night pr = Some m -> ~ (m == 0)%Q) ->
         (forall r, HotelInfo.rating h = Some r -> ~ (r == 0)%Q) ->
         (forall p, HotelInfo.price h = Some p -> ~ (p == 0)%Q) ->
         keeps pr h = spec_keeps pr h)
  /\ filter_hotels (Some (prefs (Some 4) None None)) [hotel_3_120] = []
  /\ filter_hotels (Some (prefs (Some 3) (Some 150%Q) (Some ["Wi-Fi"]))) [hotel_3_120]
     = [hotel_3_120].
Proof.
  split; [|split; [|split; [|split; [|split]]]]; try reflexivity.
  - exact filter_hotels_keeps.
  - intros pr h. unfold keeps. rewrite !andb_true_iff.
    assert (forall A B C A' B' C' : Prop,
               (A <-> A') -> (B <-> B') -> (C <-> C') ->
               ((A /\ B) /\ C <-> A' /\ B' /\ C')) as Comb by tauto.
    apply Comb.
    + destruct (HotelPreferences.star_rating pr) as [s|].
      * destruct (truthy_int s) eqn:T.
        -- rewrite rating_ok_iff. apply truthy_int_iff in T. split.
           ++ intros K s' E _. now inversion E; subst.
           ++ intro K. now apply K.
        -- split; [|reflexivity]. intros _ s' E Hs. inversion E; subst.
           apply truthy_int_iff in Hs. congruence.
      * split; [|reflexivity]. intros _ s' E. discriminate.
    + destruct (HotelPreferences.max_price_per_night pr) as [m|].
      * destruct (truthy_float m) eqn:T.
        -- rewrite price_ok_iff. apply truthy_float_iff in T. split.
           ++ intros K m' E _. now inversion E; subst.
           ++ intro K. now apply K.
        -- split; [|reflexivity]. intros _ m' E Hm. inversion E; subst.
           apply truthy_float_iff in Hm. congruence.
      * split; [|reflexivity]. intros _ m' E. discriminate.
    + destruct (HotelPreferences.amenities pr) as [[|a w]|].
      * split; [|reflexivity]. intros _ w' E Hw. inversion E; subst. congruence.
      * rewrite amenities_ok_iff by discriminate. split.
        -- intros K w' E _. now inversion E; subst.
        -- intro K. apply K; [reflexivity | discriminate].
      * split; [|reflexivity]. intros _ w' E. discriminate.
  - intros pr h Hs Hm Hr Hp. unfold keeps, spec_keeps.
    f_equal; [f_equal|].
    + destruct (HotelPreferences.star_rating pr) as [s|]; [|reflexivity].
      specialize (Hs s eq_refl). apply truthy_int_iff in Hs. rewrite Hs.
      unfold rating_ok. destruct (HotelInfo.rating h) as [r|]; [|reflexivity].
      specialize (Hr r eq_refl). apply truthy_float_iff in Hr. now rewrite Hr.
    + destruct (HotelPreferences.max_price_per_night pr) as [m|]; [|reflexivity].
      specialize (Hm m eq_refl). apply truthy_float_iff in Hm. rewrite Hm.
      unfold price_ok. destruct (HotelInfo.price h) as [p|]; [|reflexivity].
      specialize (Hp p eq_refl). apply truthy_float_iff in Hp. now rewrite Hp.
    + destruct (HotelPreferences.amenities pr) as [[|a w]|]; try reflexivity.
      unfold amenities_ok.
      destruct (HotelInfo.amenities h) as [[|b have]|]; reflexivity.
Qed.

(** C3 as stated fails where a price is zero: a hotel that costs
    nothing is dropped though its price is within the bound, and a bound
    of zero lets every hotel through. *)
Lemma filter_hotels_zero_price :
  filter_hotels (Some (prefs None (Some 150%Q) None)) [hotel_free] = []
  /\ spec_filter_hotels (prefs None (Some 150%Q) None) [hotel_free] = [hotel_free]
  /\ filter_hotels (Some (prefs None (Some 0%Q) None)) [hotel_3_120] = [hotel_3_120]
  /\ spec_filter_hotels (prefs None (Some 0%Q) None) [hotel_3_120] = [].
Proof.
  repeat split.
Qed.

(** ** The costs *)

Section Costs.

Context {C : Collaborators}.

Lemma add_flight_eq (t : Q) (best : option FlightInfo.t) (travellers : Z) :
  (add_flight t best travellers == t + price_or_zero best * inject_Z travellers)%Q.
Proof.
  unfold add_flight, price_or_zero.
  destruct best as [f|]; [|ring].
  change (price_of f) with (FlightInfo.price f).
  destruct (FlightInfo.price f) as [p|]; [|ring].
  destruct (truthy_float p) eqn:T; [reflexivity|].
  apply truthy_float_false in T. rewrite T. ring.
Qed.

Lemma assemble_flight (req : TripPlanRequest.t) (bo br : option FlightInfo.t)
      (bh : option HotelInfo.t) (n : Z) :
  (Breakdown.flight (TripPlanResponse.breakdown (assemble req bo br bh n))
   == price_or_zero bo
      * inject_Z (TripPlanRequest.adults req + TripPlanRequest.children req)
      + price_or_zero br
        * inject_Z (TripPlanRequest.adults req + TripPlanRequest.children req))%Q.
Proof.
  cbn [assemble TripPlanResponse.breakdown Breakdown.flight].
  rewrite !add_flight_eq. ring.
Qed.

Lemma assemble_hotel (req : TripPlanRequest.t) (bo br : option FlightInfo.t)
      (bh : option HotelInfo.t) (n : Z) :
  (Breakdown.hotel (TripPlanResponse.breakdown (assemble req bo br bh n))
   == price_or_zero bh * inject_Z n)%Q.
Proof.
  cbn [assemble TripPlanResponse.breakdown Breakdown.hotel].
  unfold price_or_zero. destruct bh as [h|]; [|ring].
  change (price_of h) with (HotelInfo.price h).
  destruct (HotelInfo.price h) as [p|]; [|ring].
  destruct (truthy_float p) eqn:T; [reflexivity|].
  apply truthy_float_false in T. rewrite T. ring.
Qed.

Lemma assemble_total (req : TripPlanRequest.t) (bo br : option FlightInfo.t)
      (bh : option HotelInfo.t) (n : Z) :
  TripPlanResponse.total_estimated_cost (assemble req bo br bh n)
  = (Breakdown.flight (TripPlanResponse.breakdown (assemble req bo br bh n))
     + Breakdown.hotel (TripPlanResponse.breakdown (assemble req bo br bh n)))%Q.
Proof. reflexivity. Qed.

Lemma assemble_per_person (req : TripPlanRequest.t) (bo br : option FlightInfo.t)
      (bh : option HotelInfo.t) (n : Z) :
  TripPlanResponse.per_person_per_day (assemble req bo br bh n)
  = if (0 <? n) && (0 <? TripPlanRequest.adults req + TripPlanRequest.children req)
    then Some (TripPlanResponse.total_estimated_cost (assemble req bo br bh n)
               / inject_Z ((TripPlanRequest.adults req + TripPlanRequest.children req)
                           * n))%Q
    else None.
Proof. reflexivity. Qed.

Lemma assemble_suggestions (req : TripPlanRequest.t) (bo br : option FlightInfo.t)
      (bh : option HotelInfo.t) (n : Z) :
  TripPlanResponse.suggestions (assemble req bo br bh n)
  = match TripPlanRequest.max_total_budget req with
    | Some b =>
        if truthy_float b
           && Qltb b (TripPlanResponse.total_estimated_cost (assemble req bo br bh n))
        then Some advisory else None
    | None => None
    end.
Proof. reflexivity. Qed.

(** the number of nights: one without a return date, the whole days
    between the two instants with one *)
Lemma compute_nights_iff (req : TripPlanRequest.t) (n : Z) :
  compute_nights req = Ret n
  <-> ((TripPlanRequest.return_date req = None
        \/ TripPlanRequest.return_date req = Some "") /\ n = 1)
      \/ exists s r d,
           TripPlanRequest.return_date req = Some s /\ s <> ""
           /\ to_datetime s = Some r
           /\ to_datetime (TripPlanRequest.depart_date req) = Some d
           /\ n = Timedelta_days (r - d).
Proof.
  unfold compute_nights.
  destruct (TripPlanRequest.return_date req) as [s|].
  - destruct s as [|c s]; simpl.
    + split.
      * intro K. inversion K. left. auto.
      * intros [[_ ->]|(s & r & d & E & Hne & _)]; [reflexivity|].
        inversion E; subst. congruence.
    + split.
      * intro K. right.
        destruct (to_datetime (String c s)) as [r|] eqn:Er; [|discriminate].
        destruct (to_datetime (TripPlanRequest.depart_date req)) as [d|] eqn:Ed;
          [|discriminate].
        inversion K. exists (String c s), r, d.
        split; [reflexivity|]. split; [discriminate|]. auto.
      * intros [[[E|E] _]|(s' & r & d & E & _ & Er & Ed & ->)]; try discriminate.
        inversion E; subst. now rewrite Er, Ed.
  - split.
    + intro K. inversion K. left. auto.
    + intros [[_ ->]|(s & r & d & E & _)]; [reflexivity | discriminate].
Qed.

End Costs.

(** C1, amended.  When the outbound search, the hotel search and the
    reading of the dates succeed, [plan_trip] returns a response in
    which: flight_cost is the price of the outbound flight selected
    times (adults+children) plus the price of the return flight selected
    times (adults+children), a flight that is absent or has no price
    counting for nothing; nights is the whole number of days from
    depart_date to return_date when return_date is supplied (a text that
    is not empty), whatever its sign, and 1 when return_date is absent
    or empty; hotel_cost is the price of the hotel selected times nights
    (0 without a hotel or without a price); total_estimated_cost is
    flight_cost plus hotel_cost; per_person_per_day is the total divided
    by ((adults+children) times nights) exactly when both factors are
    positive, and absent otherwise.  Two adults, flights at 300 each
    way, three nights at 100 give 1200, 300, 1500 and 250. *)
Theorem trip_costs :
  (forall (C : Collaborators) req tr fl hs n,
      found_flights (outbound_query req) = Ret fl ->
      found_hotels req = Ret hs ->
      compute_nights req = Ret n ->
      exists resp,
        plan_trip req tr = ((tr ++ events_to_hotels req)%list, Ret resp)
        /\ let travellers := TripPlanRequest.adults req + TripPlanRequest.children req in
           let b := TripPlanResponse.breakdown resp in
           (Breakdown.flight b
            == price_or_zero (TripPlanResponse.best_outbound_flight resp)
               * inject_Z travellers
               + price_or_zero (TripPlanResponse.best_return_flight resp)
                 * inject_Z travellers)%Q
           /\ Breakdown.nights b = n
           /\ (Breakdown.hotel b
               == price_or_zero (TripPlanResponse.best_hotel resp)
                  * inject_Z (Breakdown.nights b))%Q
           /\ (TripPlanResponse.total_estimated_cost resp
               == Breakdown.flight b + Breakdown.hotel b)%Q
           /\ (0 < travellers /\ 0 < Breakdown.nights b ->
               exists x, TripPlanResponse.per_person_per_day resp = Some x
                         /\ (x == TripPlanResponse.total_estimated_cost resp
                                  / inject_Z (travellers * Breakdown.nights b))%Q)
           /\ (~ (0 < travellers /\ 0 < Breakdown.nights b) ->
               TripPlanResponse.per_person_per_day resp = None))
  /\ (forall (C : Collaborators) req n,
         compute_nights req = Ret n
         <-> ((TripPlanRequest.return_date req = None
               \/ TripPlanRequest.return_date req = Some "") /\ n = 1)
             \/ exists s r d,
                  TripPlanRequest.return_date req = Some s /\ s <> ""
                  /\ to_datetime s = Some r
                  /\ to_datetime (TripPlanRequest.depart_date req) = Some d
                  /\ n = Timedelta_days (r - d))
  /\ (exists resp x,
         snd (@plan_trip world_300
                (a_request "2025-06-24" (Some "2025-06-27") None) []) = Ret resp
         /\ (Breakdown.flight (TripPlanResponse.breakdown resp) == 1200)%Q
         /\ Breakdown.nights (TripPlanResponse.breakdown resp) = 3
         /\ (Breakdown.hotel (TripPlanResponse.breakdown resp) == 300)%Q
         /\ (TripPlanResponse.total_estimated_cost resp == 1500)%Q
         /\ TripPlanResponse.per_person_per_day resp = Some x
         /\ (x == 250)%Q).
Proof.
  split; [|split].
  - intros C req tr fl hs n E1 E2 E3.
    eexists. split; [now apply plan_trip_returns; eauto|].
    cbv zeta. split; [apply assemble_flight|].
    split; [reflexivity|]. split; [apply assemble_hotel|].
    split; [rewrite assemble_total; reflexivity|].
    rewrite assemble_per_person.
    cbn [assemble TripPlanResponse.breakdown Breakdown.nights].
    split.
    + intros [Ht Hn]. apply Z.ltb_lt in Ht, Hn. rewrite Hn, Ht. simpl.
      eexists. split; reflexivity.
    + intro K.
      destruct (0 <? n) eqn:Hn; [|reflexivity].
      destruct (0 <? TripPlanRequest.adults req + TripPlanRequest.children req)
               eqn:Ht; [|reflexivity].
      apply Z.ltb_lt in Ht, Hn. tauto.
  - intros C req n. apply compute_nights_iff.
  - eexists. eexists. split; [vm_compute; reflexivity|].
    repeat split; vm_compute; reflexivity.
Qed.

Lemma trip_costs_witness :
  exists resp,
    @plan_trip world_300 (a_request "2025-06-24" (Some "2025-06-27") None) []
    = (events_to_hotels (C := world_300)
         (a_request "2025-06-24" (Some "2025-06-27") None), Ret resp)
    /\ Breakdown.nights (TripPlanResponse.breakdown resp) = 3.
Proof.
  destruct (proj1 trip_costs world_300
              (a_request "2025-06-24" (Some "2025-06-27") None) []
              [FlightInfo.mk "BA 304" "10:00 AM" "12:00 PM" None (Some "2 hr")
                 (Some 0) None (Some 300%Q) None]
              [HotelInfo.mk "Hotel du Nord" (Some 100%Q) (Some 3%Q) None
                 (Some ["Wi-Fi"])]
              3 eq_refl eq_refl eq_refl)
    as (resp & E & _ & Hn & _).
  exists resp. split; [exact E | exact Hn].
Defined.

(** C1 as stated fails on its minimum of one night: with a return date
    equal to the departure date the response counts no night at all. *)
Lemma same_day_trip_counts_no_night :
  exists resp,
    snd (@plan_trip world_300
           (a_request "2025-06-24" (Some "2025-06-24") None) []) = Ret resp
    /\ Breakdown.nights (TripPlanResponse.breakdown resp) = 0
    /\ ~ (1 <= Breakdown.nights (TripPlanResponse.breakdown resp)).
Proof.
  eexists. split; [vm_compute; reflexivity|].
  split; [reflexivity|]. intro K. vm_compute in K. now apply K.
Qed.

(** ** The advisory *)

(** C9, amended.  In the response of [plan_trip] the suggestions field
    carries the fixed advisory exactly when max_total_budget is
    supplied, is not zero, and is exceeded by total_estimated_cost; it
    is absent otherwise.  A budget of 1000 against a total of 1500 gets
    the advisory, a budget of 3000 does not. *)
Theorem advisory_when_over_budget :
  (forall (C : Collaborators) req tr fl hs n,
      found_flights (outbound_query req) = Ret fl ->
      found_hotels req = Ret hs ->
      compute_nights req = Ret n ->
      exists resp,
        plan_trip req tr = ((tr ++ events_to_hotels req)%list, Ret resp)
        /\ (TripPlanResponse.suggestions resp = Some advisory
            <-> exists b, TripPlanRequest.max_total_budget req = Some b
                          /\ ~ (b == 0)%Q
                          /\ (b < TripPlanResponse.total_estimated_cost resp)%Q)
        /\ (TripPlanResponse.suggestions resp = None
            <-> ~ exists b, TripPlanRequest.max_total_budget req = Some b
                            /\ ~ (b == 0)%Q
                            /\ (b < TripPlanResponse.total_estimated_cost resp)%Q))
  /\ (exists resp,
         snd (@plan_trip world_300
                (a_request "2025-06-24" (Some "2025-06-27") (Some 1000%Q)) [])
         = Ret resp
         /\ (TripPlanResponse.total_estimated_cost resp == 1500)%Q
         /\ TripPlanResponse.suggestions resp = Some advisory)
  /\ (exists resp,
         snd (@plan_trip world_300
                (a_request "2025-06-24" (Some "2025-06-27") (Some 3000%Q)) [])
         = Ret resp
         /\ TripPlanResponse.suggestions resp = None).
Proof.
  split; [|split].
  - intros C req tr fl hs n E1 E2 E3.
    eexists. split; [now apply plan_trip_returns; eauto|].
    rewrite assemble_suggestions.
    set (total := TripPlanResponse.total_estimated_cost _).
    assert ((exists b, TripPlanRequest.max_total_budget req = Some b
                       /\ ~ (b == 0)%Q /\ (b < total)%Q)
            <-> match TripPlanRequest.max_total_budget req with
                | Some b => truthy_float b && Qltb b total = true
                | None => False
                end) as K.
    { destruct (TripPlanRequest.max_total_budget req) as [b|].
      - rewrite andb_true_iff, truthy_float_iff, Qltb_lt. split.
        + intros (b' & E & K1 & K2). inversion E; subst. auto.
        + intros [K1 K2]. exists b. auto.
      - split; [intros (b & E & _); discriminate | tauto]. }
    rewrite K. destruct (TripPlanRequest.max_total_budget req) as [b|].
    + destruct (truthy_float b && Qltb b total); split; split;
        try discriminate; try reflexivity; try tauto; try congruence.
    + split; split; try discriminate; try reflexivity; tauto.
  - eexists. split; [vm_compute; reflexivity|]. split; vm_compute; reflexivity.
  - eexists. split; [vm_compute; reflexivity|]. vm_compute; reflexivity.
Qed.

Lemma advisory_when_over_budget_witness :
  exists resp,
    @plan_trip world_300
       (a_request "2025-06-24" (Some "2025-06-27") (Some 1000%Q)) []
    = (events_to_hotels (C := world_300)
         (a_request "2025-06-24" (Some "2025-06-27") (Some 1000%Q)), Ret resp)
    /\ (TripPlanResponse.suggestions resp = Some advisory
        <-> exists b, Some 1000%Q = Some b /\ ~ (b == 0)%Q
                      /\ (b < TripPlanResponse.total_estimated_cost resp)%Q).
Proof.
  destruct (proj1 advisory_when_over_budget world_300
              (a_request "2025-06-24" (Some "2025-06-27") (Some 1000%Q)) []
              [FlightInfo.mk "BA 304" "10:00 AM" "12:00 PM" None (Some "2 hr")
                 (Some 0) None (Some 300%Q) None]
              [HotelInfo.mk "Hotel du Nord" (Some 100%Q) (Some 3%Q) None
                 (Some ["Wi-Fi"])]
              3 eq_refl eq_refl eq_refl)
    as (resp & E & K & _).
  exists resp. split; [exact E | exact K].
Defined.

(** C9 as stated fails for a budget of zero: it is supplied, the total
    exceeds it, and no advisory is attached. *)
Lemma zero_budget_gets_no_advisory :
  exists resp,
    snd (@plan_trip world_300
           (a_request "2025-06-24" (Some "2025-06-27") (Some 0%Q)) []) = Ret resp
    /\ TripPlanRequest.max_total_budget
         (a_request "2025-06-24" (Some "2025-06-27") (Some 0%Q)) = Some 0%Q
    /\ (0 < TripPlanResponse.total_estimated_cost resp)%Q
    /\ TripPlanResponse.suggestions resp = None.
Proof.
  eexists. split; [vm_compute; reflexivity|].
  repeat split; vm_compute; reflexivity.
Qed.

(** ** Nights without a lower bound *)

Lemma Timedelta_days_neg (td : Z) : td < 0 -> Timedelta_days td < 0.
Proof.
  unfold Timedelta_days, ns_per_day. intro K.
  apply Z.div_lt_upper_bound; lia.
Qed.

(** between two midnights, the whole days are the calendar days *)
Lemma whole_days (a b : Z) :
  Timedelta_days (b * ns_per_day - a * ns_per_day) = b - a.
Proof.
  unfold Timedelta_days. rewrite <- Z.mul_sub_distr_r.
  apply Z.div_mul. unfold ns_per_day. lia.
Qed.

Lemma validate_ignores_return_date (today : date) (req : TripPlanRequest.t)
      (r : option string) :
  TripPlanRequest_validate today (set_return_date req r) = Ret (set_return_date req r)
  <-> TripPlanRequest_validate today req = Ret req.
Proof.
  unfold TripPlanRequest_validate, set_return_date. cbn.
  destruct (depart_date_not_in_past today (TripPlanRequest.depart_date req));
    cbn; [|split; discriminate].
  destruct ((1 <=? TripPlanRequest.adults req)
            && (0 <=? TripPlanRequest.children req));
    split; intro K; try discriminate; reflexivity.
Qed.

(** C10.  The validation of a trip-plan request does not look at
    return_date.  Whenever return_date is supplied (a text that is not
    empty, which [pd.to_datetime] reads, as it reads depart_date), and
    the searches succeed, [plan_trip] returns a response whose nights is
    the whole number of days from the instant of depart_date to the
    instant of return_date (between two dates, the difference in
    calendar days), with no lower bound: equal instants give 0
    nights, a hotel cost of 0 and no per_person_per_day, whatever hotel
    is selected; a return instant before the departure gives negative
    nights, and with a selected hotel of positive price a negative hotel
    cost and a total below the flight cost. *)
Theorem nights_have_no_lower_bound :
  (forall today req r,
      TripPlanRequest_validate today (set_return_date req r)
      = Ret (set_return_date req r)
      <-> TripPlanRequest_validate today req = Ret req)
  /\ (forall (C : Collaborators) req tr fl hs s r d,
         found_flights (outbound_query req) = Ret fl ->
         found_hotels req = Ret hs ->
         TripPlanRequest.return_date req = Some s -> s <> "" ->
         to_datetime s = Some r ->
         to_datetime (TripPlanRequest.depart_date req) = Some d ->
         exists resp,
           plan_trip req tr = ((tr ++ events_to_hotels req)%list, Ret resp)
           /\ let b := TripPlanResponse.breakdown resp in
              Breakdown.nights b = Timedelta_days (r - d)
              /\ (r = d ->
                  Breakdown.nights b = 0
                  /\ (Breakdown.hotel b == 0)%Q
                  /\ TripPlanResponse.per_person_per_day resp = None)
              /\ (r < d ->
                  Breakdown.nights b < 0
                  /\ TripPlanResponse.per_person_per_day resp = None
                  /\ forall h p,
                       TripPlanResponse.best_hotel resp = Some h ->
                       HotelInfo.price h = Some p -> (0 < p)%Q ->
                       (Breakdown.hotel b < 0)%Q
                       /\ (TripPlanResponse.total_estimated_cost resp
                           < Breakdown.flight b)%Q))
  /\ (forall a b : Z, Timedelta_days (b * ns_per_day - a * ns_per_day) = b - a)
  /\ (exists req,
         TripPlanRequest_validate (mkdate 2025 6 1)
           (a_request "2025-06-24" (Some "2025-06-22") None) = Ret req)
  /\ (exists resp h,
         snd (@plan_trip world_300
                (a_request "2025-06-24" (Some "2025-06-24") None) []) = Ret resp
         /\ TripPlanResponse.best_hotel resp = Some h
         /\ Breakdown.nights (TripPlanResponse.breakdown resp) = 0
         /\ (Breakdown.hotel (TripPlanResponse.breakdown resp) == 0)%Q
         /\ TripPlanResponse.per_person_per_day resp = None)
  /\ (exists resp,
         snd (@plan_trip world_300
                (a_request "2025-06-24" (Some "2025-06-22") None) []) = Ret resp
         /\ Breakdown.nights (TripPlanResponse.breakdown resp) = -2
         /\ (Breakdown.flight (TripPlanResponse.breakdown resp) == 1200)%Q
         /\ (Breakdown.hotel (TripPlanResponse.breakdown resp) == -200)%Q
         /\ (TripPlanResponse.total_estimated_cost resp == 1000)%Q).
Proof.
  split; [|split; [|split; [|split; [|split]]]].
  - exact validate_ignores_return_date.
  - intros C req tr fl hs s r d E1 E2 Es Hne Er Ed.
    assert (compute_nights req = Ret (Timedelta_days (r - d))) as En.
    { apply compute_nights_iff. right. exists s, r, d. auto. }
    eexists. split; [now apply plan_trip_returns; eauto|].
    cbv zeta. split; [reflexivity|].
    set (bh := best_by_price _ : option HotelInfo.t).
    set (bo := best_by_price fl). set (br := best_by_price (return_flights req)).
    split.
    + intros ->. replace (d - d) with 0 by lia.
      split; [reflexivity|]. split.
      * rewrite assemble_hotel. change (Timedelta_days 0) with 0. ring.
      * rewrite assemble_per_person. reflexivity.
    + intro Lt.
      assert (Timedelta_days (r - d) < 0) as Hn by (apply Timedelta_days_neg; lia).
      split; [exact Hn|]. split.
      * rewrite assemble_per_person.
        destruct (0 <? Timedelta_days (r - d)) eqn:B; [|reflexivity].
        apply Z.ltb_lt in B. lia.
      * intros h p Hh Hp Pos.
        cbn [assemble TripPlanResponse.best_hotel] in Hh.
        assert (Breakdown.hotel (TripPlanResponse.breakdown
                  (assemble req bo br bh (Timedelta_days (r - d)))) < 0)%Q as Hneg.
        { rewrite assemble_hotel, Hh. unfold price_or_zero.
          change (price_of h) with (HotelInfo.price h). rewrite Hp.
          assert (inject_Z (Timedelta_days (r - d)) < 0)%Q as Hq.
          { change 0%Q with (inject_Z 0). now rewrite <- Zlt_Qlt. }
          nra. }
        split; [exact Hneg|]. rewrite assemble_total. lra.
  - exact whole_days.
  - eexists. vm_compute. reflexivity.
  - eexists. eexists. split; [vm_compute; reflexivity|].
    repeat split; vm_compute; reflexivity.
  - eexists. split; [vm_compute; reflexivity|].
    repeat split; vm_compute; reflexivity.
Qed.

Lemma nights_have_no_lower_bound_witness :
  exists resp,
    @plan_trip world_300 (a_request "2025-06-24" (Some "2025-06-22") None) []
    = (events_to_hotels (C := world_300)
         (a_request "2025-06-24" (Some "2025-06-22") None), Ret resp)
    /\ Breakdown.nights (TripPlanResponse.breakdown resp)
       = Timedelta_days (1750550400000000000 - 1750723200000000000).
Proof.
  destruct (proj1 (proj2 nights_have_no_lower_bound) world_300
              (a_request "2025-06-24" (Some "2025-06-22") None) []
              [FlightInfo.mk "BA 304" "10:00 AM" "12:00 PM" None (Some "2 hr")
                 (Some 0) None (Some 300%Q) None]
              [HotelInfo.mk "Hotel du Nord" (Some 100%Q) (Some 3%Q) None
                 (Some ["Wi-Fi"])]
              "2025-06-22" 1750550400000000000 1750723200000000000
              eq_refl eq_refl eq_refl ltac:(discriminate) eq_refl eq_refl)
    as (resp & E & Hn & _).
  exists resp. split; [exact E | exact Hn].
Defined.

(** ** The return leg: the claim *)

Lemma flight_calls_app (a b : list Event) :
  flight_calls (a ++ b) = (flight_calls a ++ flight_calls b)%list.
Proof. unfold flight_calls. apply flat_map_app. Qed.

Lemma hotel_calls_app (a b : list Event) :
  hotel_calls (a ++ b) = (hotel_calls a ++ hotel_calls b)%list.
Proof. unfold hotel_calls. apply flat_map_app. Qed.

Lemma variant_events_calls {C : Collaborators} (req : TripPlanRequest.t)
      (rdate t : string) :
  flight_calls (variant_events req rdate t) = [return_query req rdate t]
  /\ hotel_calls (variant_events req rdate t) = [].
Proof.
  unfold variant_events.
  destruct (found_flights (return_query req rdate t)); split; reflexivity.
Qed.

Lemma return_leg_given {C : Collaborators} (req : TripPlanRequest.t) (s : string)
      (tr : list Event) :
  TripPlanRequest.return_date req = Some s -> s <> "" ->
  return_leg req tr
  = ((tr ++ flat_map (variant_events req s) trip_types)%list,
     Ret (best_by_price (flat_map (variant_flights req s) trip_types))).
Proof.
  intros E Hne. rewrite return_leg_run.
  unfold return_events, return_flights. rewrite E.
  destruct s; [congruence | reflexivity].
Qed.

(** C4.  When return_date is supplied (a text that is not empty), the
    return leg calls the flight collaborator three times, for the trip
    types one-way, round-trip and multi-city in this order, whatever
    each call does; a variant that fails leaves a warning in the log and
    nothing else, and the leg itself never raises; the flight it selects
    is the first of the cheapest among all the flights of the variants
    that succeeded, taken in the order of the variants (a later flight
    replaces the selection only when strictly cheaper).  This selection
    is the best_return_flight of the response, so that no failure of a
    variant shows there.  When return_date is not supplied (absent, or
    an empty text), nothing is searched and no return flight is
    selected, without an error.  With
    the one-way search failing, the round-trip search finding 400 and
    the multi-city search finding 350, the return flight selected costs
    350. *)
Theorem return_leg_variants :
  (forall (C : Collaborators) req s tr,
      TripPlanRequest.return_date req = Some s -> s <> "" ->
      return_leg req tr
      = ((tr ++ flat_map (variant_events req s) trip_types)%list,
         Ret (best_by_price (flat_map (variant_flights req s) trip_types)))
      /\ flight_calls (flat_map (variant_events req s) trip_types)
         = [return_query req s "one-way"; return_query req s "round-trip";
            return_query req s "multi-city"]
      /\ hotel_calls (flat_map (variant_events req s) trip_types) = []
      /\ match best_by_price (flat_map (variant_flights req s) trip_types) with
         | None =>
             forall t f, In t trip_types -> In f (variant_flights req s t) ->
                         FlightInfo.price f = None
         | Some f =>
             exists l1 l2 p,
               flat_map (variant_flights req s) trip_types = (l1 ++ f :: l2)%list
               /\ FlightInfo.price f = Some p
               /\ (forall g q, In g l1 -> FlightInfo.price g = Some q -> (p < q)%Q)
               /\ (forall g q, In g l2 -> FlightInfo.price g = Some q -> (p <= q)%Q)
               /\ (forall t g q, In t trip_types -> In g (variant_flights req s t) ->
                                 FlightInfo.price g = Some q -> (p <= q)%Q)
         end)
  /\ (forall (C : Collaborators) req tr,
         TripPlanRequest.return_date req = None
         \/ TripPlanRequest.return_date req = Some "" ->
         return_leg req tr = (tr, Ret None))
  /\ (forall (C : Collaborators) req tr fl hs n,
         found_flights (outbound_query req) = Ret fl ->
         found_hotels req = Ret hs ->
         compute_nights req = Ret n ->
         exists resp,
           plan_trip req tr = ((tr ++ events_to_hotels req)%list, Ret resp)
           /\ TripPlanResponse.best_return_flight resp
              = best_by_price (return_flights req))
  /\ (exists tr resp f,
         @plan_trip world_variants
            (a_request "2025-06-24" (Some "2025-06-27") None) [] = (tr, Ret resp)
         /\ TripPlanResponse.best_return_flight resp = Some f
         /\ FlightInfo.price f = Some 350%Q
         /\ map FlightQuery.trip (flight_calls tr)
            = ["one-way"; "one-way"; "round-trip"; "multi-city"]).
Proof.
  split; [|split; [|split]].
  - intros C req s tr E Hne.
    split; [now apply return_leg_given|].
    split; [|split].
    + cbn [trip_types flat_map]. rewrite !flight_calls_app.
      rewrite !(proj1 (variant_events_calls req s _)). reflexivity.
    + cbn [trip_types flat_map]. rewrite !hotel_calls_app.
      rewrite !(proj2 (variant_events_calls req s _)). reflexivity.
    + pose proof (best_by_price_first
                    (flat_map (variant_flights req s) trip_types)) as B.
      destruct (best_by_price (flat_map (variant_flights req s) trip_types))
        as [f|].
      * destruct B as (l1 & l2 & p & El & Hp & K1 & K2).
        exists l1, l2, p. repeat split; auto.
        intros t g q Ht Hg Hq.
        assert (In g (flat_map (variant_flights req s) trip_types)) as I
            by (apply in_flat_map; eauto).
        rewrite El in I. apply in_app_or in I. destruct I as [I|[<-|I]].
        -- apply Qlt_le_weak. now apply (K1 g q).
        -- change (FlightInfo.price f = Some p) in Hp.
           rewrite Hp in Hq. inversion Hq. apply Qle_refl.
        -- now apply (K2 g q).
      * intros t f Ht Hf. apply B. apply in_flat_map. eauto.
  - intros C req tr [E|E]; rewrite return_leg_run;
      unfold return_events, return_flights; rewrite E;
      now rewrite app_nil_r.
  - intros C req tr fl hs n E1 E2 E3.
    eexists. split; [now apply plan_trip_returns; eauto|]. reflexivity.
  - eexists. eexists. eexists. split; [vm_compute; reflexivity|].
    repeat split.
Qed.

Lemma return_leg_variants_witness :
  @return_leg world_variants (a_request "2025-06-24" (Some "2025-06-27") None) []
  = (flat_map (variant_events (C := world_variants)
                 (a_request "2025-06-24" (Some "2025-06-27") None) "2025-06-27")
       trip_types,
     Ret (best_by_price
            (flat_map (variant_flights (C := world_variants)
                         (a_request "2025-06-24" (Some "2025-06-27") None)
                         "2025-06-27") trip_types))).
Proof.
  exact (proj1 (proj1 return_leg_variants world_variants
                  (a_request "2025-06-24" (Some "2025-06-27") None)
                  "2025-06-27" [] eq_refl ltac:(discriminate))).
Defined.

(** ** The failures of [plan_trip] *)

Lemma found_flights_call_fails {C : Collaborators} (q : FlightQuery.t) (e : PyExc) :
  get_flights q = Raise e -> found_flights q = Raise e.
Proof. unfold found_flights. now intros ->. Qed.

Lemma found_hotels_fails {C : Collaborators} (req : TripPlanRequest.t) (e : PyExc) :
  found_hotels req = Raise e <-> get_hotels (hotel_query req) = Raise e.
Proof.
  unfold found_hotels. destruct (get_hotels (hotel_query req)); simpl;
    split; congruence.
Qed.

(** C7.  When the outbound flight search fails (the call, or the
    construction of a record from what it returned), [plan_trip] fails
    with status 502 and a detail that starts with "Outbound flight
    search failed", after one flight search and no hotel search.  When
    the outbound search succeeds and the hotel search call fails, it
    fails with status 502 and a detail that starts with "Hotel search
    failed".  Any other failure, which is a date that cannot be read,
    gives status 400; and [plan_trip] fails in no other way. *)
Theorem plan_trip_failures :
  (forall (C : Collaborators) req tr e,
      found_flights (outbound_query req) = Raise e ->
      plan_trip req tr
      = ((tr ++ [CallGetFlights (outbound_query req);
                 Logged ERROR ("Outbound flight search error in /trip/plan: "
                               ++ str_exc e)])%list,
         Raise (HTTPException 502 ("Outbound flight search failed: " ++ str_exc e)))
      /\ hotel_calls (fst (plan_trip req tr)) = hotel_calls tr
      /\ flight_calls (fst (plan_trip req tr))
         = (flight_calls tr ++ [outbound_query req])%list)
  /\ (forall (C : Collaborators) req e,
         get_flights (outbound_query req) = Raise e ->
         found_flights (outbound_query req) = Raise e)
  /\ (forall (C : Collaborators) req tr fl e,
         found_flights (outbound_query req) = Ret fl ->
         get_hotels (hotel_query req) = Raise e ->
         snd (plan_trip req tr)
         = Raise (HTTPException 502 ("Hotel search failed: " ++ str_exc e)))
  /\ (forall (C : Collaborators) req tr fl hs e,
         found_flights (outbound_query req) = Ret fl ->
         found_hotels req = Ret hs ->
         compute_nights req = Raise e ->
         snd (plan_trip req tr) = Raise (HTTPException 400 (str_exc e)))
  /\ (forall (C : Collaborators) req tr err,
         snd (plan_trip req tr) = Raise err ->
         (exists e, found_flights (outbound_query req) = Raise e
                    /\ err = HTTPException 502
                               ("Outbound flight search failed: " ++ str_exc e))
         \/ (exists e, get_hotels (hotel_query req) = Raise e
                       /\ err = HTTPException 502
                                  ("Hotel search failed: " ++ str_exc e))
         \/ (exists e, compute_nights req = Raise e
                       /\ err = HTTPException 400 (str_exc e)))
  /\ @plan_trip world_no_flights
        (a_request "2025-06-24" (Some "2025-06-27") None) []
     = ([CallGetFlights (outbound_query
                           (a_request "2025-06-24" (Some "2025-06-27") None));
         Logged ERROR "Outbound flight search error in /trip/plan: No flights found"],
        Raise (HTTPException 502 "Outbound flight search failed: No flights found"))
  /\ snd (@plan_trip world_no_hotels
            (a_request "2025-06-24" (Some "2025-06-27") None) [])
     = Raise (HTTPException 502 "Hotel search failed: Scraper blocked")
  /\ snd (@plan_trip world_300
            (a_request "2025-06-24" (Some "next week") None) [])
     = Raise (HTTPException 400 "Unknown datetime string format").
Proof.
  split; [|split; [|split; [|split; [|split; [|repeat split]]]]].
  - intros C req tr e E. rewrite plan_trip_run, E. cbn [fst].
    split; [reflexivity|]. split.
    + rewrite hotel_calls_app. cbn. now rewrite app_nil_r.
    + rewrite flight_calls_app. reflexivity.
  - intros C req e. apply found_flights_call_fails.
  - intros C req tr fl e E1 E2. apply found_hotels_fails in E2.
    now rewrite plan_trip_run, E1, E2.
  - intros C req tr fl hs e E1 E2 E3.
    now rewrite plan_trip_run, E1, E2, E3.
  - intros C req tr err. rewrite plan_trip_run.
    destruct (found_flights (outbound_query req)) as [fl|e] eqn:E1.
    + destruct (found_hotels req) as [hs|e] eqn:E2.
      * destruct (compute_nights req) as [n|e] eqn:E3; cbn [snd].
        -- discriminate.
        -- intro K. inversion K. right. right. eauto.
      * cbn [snd]. intro K. inversion K. right. left.
        apply found_hotels_fails in E2. eauto.
    + cbn [snd]. intro K. inversion K. left. eauto.
Qed.

Lemma plan_trip_failures_witness :
  hotel_calls (fst (@plan_trip world_no_flights
                      (a_request "2025-06-24" (Some "2025-06-27") None) []))
  = hotel_calls [].
Proof.
  exact (proj1 (proj2 (proj1 plan_trip_failures world_no_flights
                         (a_request "2025-06-24" (Some "2025-06-27") None) []
                         (UpstreamError "No flights found") eq_refl))).
Defined.

(** ** The statements above at concrete inputs *)

Lemma best_flight_is_first_cheapest_witness :
  best_by_price [priced_flight "A" None; priced_flight "B" None] = None.
Proof.
  apply (proj1 (proj2 best_flight_is_first_cheapest)
           [priced_flight "A" None; priced_flight "B" None]).
  intros f [<-|[<-|[]]]; reflexivity.
Defined.

Lemma parse_price_mapping_witness :
  exists q, _parse_price (PyStr "$1,234.50 per person") = Ret (PyFloat q)
            /\ (q == decimal_value "1234" "50")%Q.
Proof.
  apply (proj1 (proj2 (proj2 parse_price_mapping))
           "$" "1,234.50" " per person" "1234" "50");
    try reflexivity; try discriminate.
  left. discriminate.
Defined.

Lemma filter_hotels_conjunctive_witness :
  keeps (prefs (Some 3) (Some 150%Q) (Some ["Wi-Fi"])) hotel_3_120
  = spec_keeps (prefs (Some 3) (Some 150%Q) (Some ["Wi-Fi"])) hotel_3_120.
Proof.
  apply (proj1 (proj2 (proj2 (proj2 filter_hotels_conjunctive)))
           (prefs (Some 3) (Some 150%Q) (Some ["Wi-Fi"])) hotel_3_120).
  - intros s E. inversion E. discriminate.
  - intros m E. inversion E. discriminate.
  - intros r E. inversion E. discriminate.
  - intros p E. inversion E. discriminate.
Defined.

(** * Further properties of the code *)

(** ** [_parse_price]: only the first run counts *)

(** X1.  The answer of [_parse_price] on a text depends on the first
    run of digits, dots and commas alone: what stands before it (a
    currency sign, a minus sign) and what follows it (a unit, a second
    number) changes nothing, whether the answer is a value or a
    [ValueError]. *)
Theorem parse_price_first_run_only (pre m post : string) :
  str_forall not_price_char pre = true ->
  str_forall is_price_char m = true -> m <> "" -> stops_run post ->
  _parse_price (PyStr (pre ++ m ++ post)) = _parse_price (PyStr m).
Proof.
  intros Hpre Hm Hne Hpost. unfold _parse_price.
  rewrite (re_search_price_run pre m post Hpre Hm Hne Hpost).
  pose proof (re_search_price_run "" m "" eq_refl Hm Hne I) as K.
  simpl in K. rewrite str_app_nil_r in K. now rewrite K.
Qed.

Lemma parse_price_first_run_only_witness :
  _parse_price (PyStr "-$12.50 or $9.99") = _parse_price (PyStr "12.50").
Proof.
  apply (parse_price_first_run_only "-$" "12.50" " or $9.99");
    [reflexivity | reflexivity | discriminate | reflexivity].
Defined.


(** X2.  What [_parse_price] returns is never a text, and normalizing
    it again changes nothing; from a text it returns null or a float
    that is not negative. *)
Theorem parse_price_idempotent (v r : PyVal) :
  _parse_price v = Ret r ->
  (forall s, r <> PyStr s)
  /\ _parse_price r = Ret r
  /\ (forall s, v = PyStr s ->
        r = PyNone \/ exists q, r = PyFloat q /\ (0 <= q)%Q).
Proof.
  destruct v as [|b|z|q|s|o]; simpl; intro E;
    try (inversion E; subst; repeat split;
         [discriminate | intros s' K; discriminate]).
  destruct (re_search_price s) as [m|].
  - destruct (py_float (remove_commas m)) as [q|] eqn:F; [|discriminate].
    simpl in E. inversion E; subst. repeat split; [discriminate|].
    intros s' _. right. exists q. split; [reflexivity|].
    eapply py_float_nonneg; eauto.
  - inversion E; subst. repeat split; [discriminate|]. intros s' _. now left.
Qed.

Lemma parse_price_idempotent_witness :
  _parse_price (PyFloat (123450 # 100)) = Ret (PyFloat (123450 # 100)).
Proof.
  exact (proj1 (proj2 (parse_price_idempotent
                         (PyStr "$1,234.50") (PyFloat (123450 # 100)) eq_refl))).
Defined.

(** ** [_parse_stops] *)



















(** ** The construction of a flight record *)


(** ** Lists of records: all or nothing, in order *)


Lemma res_map_Forall2 {A B} (f : A -> Res B) (l : list A) (l' : list B) :
  res_map f l = Ret l' <-> Forall2 (fun x y => f x = Ret y) l l'.
Proof.
  revert l'. induction l as [|x l IH]; intro l'; simpl.
  - split.
    + intro K. inversion K. constructor.
    + intro K. inversion K. reflexivity.
  - destruct (f x) as [y|e] eqn:E; simpl.
    + destruct (res_map f l) as [ys|e] eqn:R; simpl.
      * split.
        -- intro K. inversion K; subst. constructor; [exact E | now apply IH].
        -- intro K. inversion K as [|? ? ? ? K1 K2]; subst.
           rewrite E in K1. inversion K1; subst.
           apply IH in K2. inversion K2; subst. reflexivity.
      * split; [discriminate|].
        intro K. inversion K as [|? ? ? ? K1 K2]; subst.
        apply IH in K2. discriminate.
    + split; [discriminate|].
      intro K. inversion K as [|? ? ? ? K1 K2]; subst. congruence.
Qed.



Lemma search_flights_run {C : Collaborators} (req : FlightSearchRequest.t)
      (tr : list Event) :
  search_flights req tr
  = match get_flights (flight_search_query req) with
    | Ret result =>
        match res_map FlightInfo_of_raw (FlightsResult.flights result) with
        | Ret flights =>
            ((tr ++ [CallGetFlights (flight_search_query req)])%list,
             Ret {| FlightSearchResponse.flights := flights;
                    FlightSearchResponse.current_price :=
                      FlightsResult.current_price result |})
        | Raise e =>
            ((tr ++ [CallGetFlights (flight_search_query req);
                     Logged ERROR ("Flight search error: " ++ str_exc e)])%list,
             Raise (HTTPException 400 (str_exc e)))
        end
    | Raise e =>
        ((tr ++ [CallGetFlights (flight_search_query req);
                 Logged ERROR ("Flight search error: " ++ str_exc e)])%list,
         Raise (HTTPException 400 (str_exc e)))
    end.
Proof.
  unfold search_flights, try_except, bind, call_get_flights, lift, ret.
  change (FlightQuery.mk _ _ _ _ _ _ _ _ _ _) with (flight_search_query req).
  destruct (get_flights (flight_search_query req)) as [result|e].
  - destruct (res_map FlightInfo_of_raw (FlightsResult.flights result)).
    + reflexivity.
    + unfold logging, raise. now rewrite <- app_assoc.
  - unfold logging, raise. now rewrite <- app_assoc.
Qed.


(** ** [/hotels/search] *)

(** X6.  [/hotels/search] calls the hotel collaborator once, with the
    fields of the request, and never the flight collaborator.  When the
    call fails the answer is a 400 whose detail is the message of the
    failure, logged once; when it returns, the response lists one record
    per hotel, in the order of the collaborator and with its name, price,
    rating, link and amenities, next to the two price indicators of the
    collaborator. *)
Theorem search_hotels_outcomes :
  forall (C : Collaborators) (req : HotelSearchRequest.t) (tr : list Event),
    hotel_calls (fst (search_hotels req tr))
    = (hotel_calls tr ++ [hotel_search_query req])%list
    /\ flight_calls (fst (search_hotels req tr)) = flight_calls tr
    /\ (forall e,
          get_hotels (hotel_search_query req) = Raise e ->
          search_hotels req tr
          = ((tr ++ [CallGetHotels (hotel_search_query req);
                     Logged ERROR ("Hotel search error: " ++ str_exc e)])%list,
             Raise (HTTPException 400 (str_exc e))))
    /\ (forall result,
          get_hotels (hotel_search_query req) = Ret result ->
          exists resp,
            search_hotels req tr
            = ((tr ++ [CallGetHotels (hotel_search_query req)])%list, Ret resp)
            /\ map HotelInfo.name (HotelSearchResponse.hotels resp)
               = map RawHotel.name (HotelsResult.hotels result)
            /\ map HotelInfo.price (HotelSearchResponse.hotels resp)
               = map RawHotel.price (HotelsResult.hotels result)
            /\ map HotelInfo.rating (HotelSearchResponse.hotels resp)
               = map RawHotel.rating (HotelsResult.hotels result)
            /\ map HotelInfo.url (HotelSearchResponse.hotels resp)
               = map RawHotel.url (HotelsResult.hotels result)
            /\ map HotelInfo.amenities (HotelSearchResponse.hotels resp)
               = map RawHotel.amenities (HotelsResult.hotels result)
            /\ HotelSearchResponse.lowest_price resp
               = HotelsResult.lowest_price result
            /\ HotelSearchResponse.current_price resp
               = HotelsResult.current_price result).
Proof.
  intros C req tr.
  unfold search_hotels, try_except, bind, call_get_hotels, ret.
  destruct (get_hotels (hotel_search_query req)) as [result|e].
  - cbn [fst]. rewrite hotel_calls_app, flight_calls_app. cbn.
    rewrite app_nil_r. repeat split; try discriminate.
    intros result' E. inversion E; subst result'.
    eexists. split; [reflexivity|]. cbn.
    rewrite !map_map. repeat split.
  - unfold logging, raise. cbn [fst].
    rewrite <- app_assoc, hotel_calls_app, flight_calls_app. cbn.
    rewrite app_nil_r. repeat split; try discriminate.
    intros e' E. inversion E; subst. reflexivity.
Qed.

(** ** The outbound leg and [/flights/search] *)

(** X7.  The outbound leg of [/trip/plan] asks the question of a
    [/flights/search] request for the departure date, from the origin
    to the destination, one-way, economy, with the travellers of the
    plan, no infants and the local fetch mode.  When that search answers
    a list, the outbound flight of every plan that succeeds is the first
    cheapest record of that list; when it answers a 400 with some
    detail, the plan answers a 502 whose detail is "Outbound flight
    search failed: " followed by the same detail. *)
Theorem outbound_leg_is_flight_search :
  forall (C : Collaborators) (req : TripPlanRequest.t) (tr tr2 : list Event),
    flight_search_query (as_flight_search req) = outbound_query req
    /\ match snd (search_flights (as_flight_search req) tr) with
       | Ret found =>
           forall tr3 resp,
             plan_trip req tr2 = (tr3, Ret resp) ->
             TripPlanResponse.best_outbound_flight resp
             = best_by_price (FlightSearchResponse.flights found)
       | Raise err =>
           exists detail,
             err = HTTPException 400 detail
             /\ snd (plan_trip req tr2)
                = Raise (HTTPException 502
                           ("Outbound flight search failed: " ++ detail))
       end.
Proof.
  intros C req tr tr2. split; [reflexivity|].
  rewrite search_flights_run, plan_trip_run.
  change (flight_search_query (as_flight_search req)) with (outbound_query req).
  unfold found_flights.
  destruct (get_flights (outbound_query req)) as [result|e]; cbn [res_bind].
  - destruct (res_map FlightInfo_of_raw (FlightsResult.flights result))
      as [flights|e]; cbn [snd].
    + intros tr3 resp K.
      destruct (found_hotels req); [|discriminate].
      destruct (compute_nights req); [|discriminate].
      inversion K; subst. reflexivity.
    + eexists. split; reflexivity.
  - cbn [snd]. eexists. split; reflexivity.
Qed.

(** ** The calls of [plan_trip] *)





(** ** The hotel of the plan *)

Lemma filter_hotels_preferred (req : TripPlanRequest.t) (hs : list HotelInfo.t) :
  filter_hotels (TripPlanRequest.hotel_preferences req) hs
  = filter (preferred req) hs.
Proof.
  unfold preferred.
  destruct (TripPlanRequest.hotel_preferences req) as [pr|].
  - apply filter_hotels_keeps.
  - simpl. symmetry. apply filter_true.
Qed.

Lemma inject_Z_nonneg (n : Z) : 0 <= n -> (0 <= inject_Z n)%Q.
Proof. intro K. change 0%Q with (inject_Z 0). now rewrite <- Zle_Qle. Qed.

(** X9.  In a plan that succeeds, the hotel selected is one of the
    hotels the collaborator returned, it satisfies the preferences of
    the request, it has a price, and no hotel that satisfies the
    preferences and has a price is cheaper; no hotel is selected exactly
    when none of the hotels that satisfy the preferences has a price. *)
Theorem best_hotel_is_preferred_and_cheapest
        (C : Collaborators) (req : TripPlanRequest.t) (tr tr' : list Event)
        (resp : TripPlanResponse.t) :
  plan_trip req tr = (tr', Ret resp) ->
  exists hs,
    found_hotels req = Ret hs
    /\ match TripPlanResponse.best_hotel resp with
       | Some h =>
           exists p,
             In h hs /\ preferred req h = true /\ HotelInfo.price h = Some p
             /\ forall h' q, In h' hs -> preferred req h' = true ->
                             HotelInfo.price h' = Some q -> (p <= q)%Q
       | None =>
           forall h', In h' hs -> preferred req h' = true ->
                      HotelInfo.price h' = None
       end.
Proof.
  intro K.
  destruct (plan_trip_returns_inv req tr tr' resp K)
    as (fl & hs & n & _ & E2 & _ & _ & ->).
  exists hs. split; [exact E2|].
  cbn [assemble TripPlanResponse.best_hotel].
  rewrite filter_hotels_preferred.
  pose proof (best_by_price_first (filter (preferred req) hs)) as B.
  destruct (best_by_price (filter (preferred req) hs)) as [h|].
  - destruct B as (l1 & l2 & p & El & Hp & K1 & K2).
    assert (In h (filter (preferred req) hs)) as Ih
        by (rewrite El; apply in_or_app; right; now left).
    apply filter_In in Ih as [Ih Ph].
    exists p. split; [exact Ih|]. split; [exact Ph|]. split; [exact Hp|].
    intros h' q Ih' Ph' Hq.
    assert (In h' (filter (preferred req) hs)) as I' by (apply filter_In; auto).
    rewrite El in I'. apply in_app_or in I'. destruct I' as [I'|[<-|I']].
    + apply Qlt_le_weak. now apply (K1 h' q).
    + change (HotelInfo.price h = Some p) in Hp. rewrite Hp in Hq.
      inversion Hq. apply Qle_refl.
    + now apply (K2 h' q).
  - intros h' Ih' Ph'. apply B. apply filter_In. auto.
Qed.

Lemma best_hotel_is_preferred_and_cheapest_witness :
  exists hs,
    found_hotels (C := world_300)
      (a_request "2025-06-24" (Some "2025-06-27") None) = Ret hs
    /\ exists p,
         In (HotelInfo.mk "Hotel du Nord" (Some 100%Q) (Some 3%Q) None
               (Some ["Wi-Fi"])) hs
         /\ HotelInfo.price
              (HotelInfo.mk "Hotel du Nord" (Some 100%Q) (Some 3%Q) None
                 (Some ["Wi-Fi"])) = Some p.
Proof.
  destruct (best_hotel_is_preferred_and_cheapest world_300
              (a_request "2025-06-24" (Some "2025-06-27") None) [] _ _ eq_refl)
    as (hs & E & p & I1 & _ & Hp & _).
  exists hs. split; [exact E|]. exists p. split; [exact I1 | exact Hp].
Defined.

(** X10.  With a positive max_price_per_night in the preferences, the
    hotel selected costs at most that much a night, and the hotel cost
    of the plan is at most max_price_per_night times nights whenever
    nights is not negative. *)
Theorem hotel_cost_within_preference
        (C : Collaborators) (req : TripPlanRequest.t) (tr tr' : list Event)
        (resp : TripPlanResponse.t) (pr : HotelPreferences.t) (m : Q) :
  plan_trip req tr = (tr', Ret resp) ->
  TripPlanRequest.hotel_preferences req = Some pr ->
  HotelPreferences.max_price_per_night pr = Some m ->
  (0 < m)%Q ->
  (forall h p, TripPlanResponse.best_hotel resp = Some h ->
               HotelInfo.price h = Some p -> (p <= m)%Q)
  /\ (0 <= Breakdown.nights (TripPlanResponse.breakdown resp) ->
      (Breakdown.hotel (TripPlanResponse.breakdown resp)
       <= m * inject_Z (Breakdown.nights (TripPlanResponse.breakdown resp)))%Q).
Proof.
  intros K Epr Em Pos.
  destruct (plan_trip_returns_inv req tr tr' resp K)
    as (fl & hs & n & _ & _ & _ & _ & ->).
  set (bh := best_by_price (filter_hotels (TripPlanRequest.hotel_preferences req) hs)).
  assert (forall h p, bh = Some h -> HotelInfo.price h = Some p -> (p <= m)%Q) as B.
  { intros h p Eh Hp. unfold bh in Eh. rewrite filter_hotels_preferred in Eh.
    pose proof (best_by_price_first (filter (preferred req) hs)) as F.
    rewrite Eh in F. destruct F as (l1 & l2 & p' & El & _).
    assert (In h (filter (preferred req) hs)) as Ih
        by (rewrite El; apply in_or_app; right; now left).
    apply filter_In in Ih as [_ Ph]. unfold preferred in Ph. rewrite Epr in Ph.
    unfold keeps in Ph. rewrite Em in Ph.
    assert (truthy_float m = true) as T by (apply truthy_float_iff; lra).
    rewrite T in Ph. apply andb_true_iff in Ph as [Ph _].
    apply andb_true_iff in Ph as [_ Ph].
    apply price_ok_iff in Ph as (p'' & E'' & _ & Le). congruence. }
  split.
  - intros h p Eh Hp. cbn [assemble TripPlanResponse.best_hotel] in Eh. eauto.
  - intro Hn. rewrite assemble_hotel.
    cbn [assemble TripPlanResponse.breakdown Breakdown.nights] in *.
    pose proof (inject_Z_nonneg n Hn) as Qn.
    fold bh. unfold price_or_zero. destruct bh as [h|] eqn:Eb; [|nra].
    change (price_of h) with (HotelInfo.price h).
    destruct (HotelInfo.price h) as [p|] eqn:Hp; [|nra].
    pose proof (B h p eq_refl Hp). nra.
Qed.

Lemma hotel_cost_within_preference_witness :
  exists resp,
    snd (@plan_trip world_300 a_request_150 []) = Ret resp
    /\ (Breakdown.hotel (TripPlanResponse.breakdown resp) <= 150 * inject_Z 3)%Q.
Proof.
  eexists. split; [reflexivity|].
  apply (proj2 (hotel_cost_within_preference world_300 a_request_150 [] _ _
                  (prefs None (Some 150%Q) None) 150%Q
                  eq_refl eq_refl eq_refl eq_refl)).
  cbn. lia.
Defined.

(** ** Nothing found *)

Lemma best_by_price_none {A} `{Priced A} (l : list A) :
  (forall x, In x l -> price_of x = None) -> best_by_price l = None.
Proof.
  intro K. unfold best_by_price. now rewrite (proj2 (priced_nil l) K).
Qed.

(** X11.  Finding nothing is no error.  When the searches answer but no
    flight found, outbound or return, has a price (in particular when
    the lists are empty) and no hotel has one, the plan succeeds with no
    flight and no hotel selected and with a flight cost, a hotel cost
    and a total of zero; and then no advisory is attached unless the
    budget is negative. *)
Theorem plan_with_nothing_priced
        (C : Collaborators) (req : TripPlanRequest.t) (tr : list Event)
        (fl : list FlightInfo.t) (hs : list HotelInfo.t) (n : Z) :
  found_flights (outbound_query req) = Ret fl ->
  found_hotels req = Ret hs ->
  compute_nights req = Ret n ->
  (forall f, In f fl -> FlightInfo.price f = None) ->
  (forall f, In f (return_flights req) -> FlightInfo.price f = None) ->
  (forall h, In h hs -> HotelInfo.price h = None) ->
  exists resp,
    plan_trip req tr = ((tr ++ events_to_hotels req)%list, Ret resp)
    /\ TripPlanResponse.best_outbound_flight resp = None
    /\ TripPlanResponse.best_return_flight resp = None
    /\ TripPlanResponse.best_hotel resp = None
    /\ Breakdown.flight (TripPlanResponse.breakdown resp) = 0%Q
    /\ Breakdown.hotel (TripPlanResponse.breakdown resp) = 0%Q
    /\ (TripPlanResponse.total_estimated_cost resp == 0)%Q
    /\ ((forall b, TripPlanRequest.max_total_budget req = Some b -> (0 <= b)%Q) ->
        TripPlanResponse.suggestions resp = None).
Proof.
  intros E1 E2 E3 K1 K2 K3.
  eexists. split; [now apply plan_trip_returns; eauto|].
  rewrite (best_by_price_none (H := Priced_FlightInfo) fl K1),
    (best_by_price_none (H := Priced_FlightInfo) _ K2).
  assert (best_by_price (filter_hotels (TripPlanRequest.hotel_preferences req) hs)
          = None) as Bh.
  { rewrite filter_hotels_preferred.
    apply (best_by_price_none (H := Priced_HotelInfo)).
    intros h Ih. apply filter_In in Ih as [Ih _]. now apply K3. }
  rewrite Bh. cbn. repeat split; try reflexivity.
  intro Kb. destruct (TripPlanRequest.max_total_budget req) as [b|]; [|reflexivity].
  specialize (Kb b eq_refl).
  destruct (Qltb b (0 + 0)) eqn:L; [|now rewrite andb_false_r].
  apply Qltb_lt in L. exfalso. lra.
Qed.

Lemma plan_with_nothing_priced_witness :
  exists resp,
    @plan_trip
      {| get_flights := fun _ => some_flights [];
         get_hotels := fun _ => some_hotels [];
         to_datetime := iso_to_datetime |}
      (a_request "2025-06-24" None None) []
    = (events_to_hotels
         (C := {| get_flights := fun _ => some_flights [];
                  get_hotels := fun _ => some_hotels [];
                  to_datetime := iso_to_datetime |})
         (a_request "2025-06-24" None None), Ret resp)
    /\ TripPlanResponse.best_outbound_flight resp = None
    /\ (TripPlanResponse.total_estimated_cost resp == 0)%Q.
Proof.
  destruct (plan_with_nothing_priced
              {| get_flights := fun _ => some_flights [];
                 get_hotels := fun _ => some_hotels [];
                 to_datetime := iso_to_datetime |}
              (a_request "2025-06-24" None None) [] [] [] 1
              eq_refl eq_refl eq_refl
              (fun f (K : In f []) => match K with end)
              (fun f (K : In f []) => match K with end)
              (fun h (K : In h []) => match K with end))
    as (resp & E & B & _ & _ & _ & _ & T & _).
  exists resp. split; [exact E|]. split; [exact B | exact T].
Defined.

(** ** Validated requests *)




(** ** The validator of [depart_date] *)




(** ** The sign of the flight cost *)

Lemma Forall2_In_r {A B} (R : A -> B -> Prop) (l : list A) (l' : list B) (y : B) :
  Forall2 R l l' -> In y l' -> exists x, In x l /\ R x y.
Proof.
  intro F. induction F as [|a b l l' Rab F IH]; intros I'.
  - destruct I'.
  - destruct I' as [<-|I'].
    + exists a. split; [now left | exact Rab].
    + destruct (IH I') as (x & Ix & Rx). exists x. split; [now right | exact Rx].
Qed.

Lemma found_flights_In {C : Collaborators} (q : FlightQuery.t)
      (fl : list FlightInfo.t) (f : FlightInfo.t) :
  found_flights q = Ret fl -> In f fl ->
  exists result raw,
    get_flights q = Ret result /\ In raw (FlightsResult.flights result)
    /\ FlightInfo_of_raw raw = Ret f.
Proof.
  unfold found_flights. destruct (get_flights q) as [result|]; [|discriminate].
  cbn [res_bind]. intros R I'. apply res_map_Forall2 in R.
  destruct (Forall2_In_r _ _ _ _ R I') as (raw & Ir & E).
  exists result, raw. auto.
Qed.

Lemma validated_price_sign (v pv : PyVal) (p : Q) :
  _parse_price v = Ret pv -> validate_opt_float pv = Ret (Some p) ->
  ~ negative_number v -> (0 <= p)%Q.
Proof.
  destruct v as [|b|z|q|s|o]; simpl; intros E V N;
    try (inversion E; subst; simpl in V; inversion V; subst).
  - destruct b; discriminate.
  - unfold Qle. simpl. lia.
  - now apply Qnot_lt_le.
  - destruct (re_search_price s) as [m|].
    + destruct (py_float (remove_commas m)) as [q|] eqn:F; [|discriminate].
      simpl in E. inversion E; subst. simpl in V. inversion V; subst.
      eapply py_float_nonneg; eauto.
    + inversion E; subst. discriminate.
Qed.

Lemma record_price_sign (raw : RawFlight.t) (fi : FlightInfo.t) (p : Q) :
  FlightInfo_of_raw raw = Ret fi -> FlightInfo.price fi = Some p ->
  ~ negative_number (RawFlight.price raw) -> (0 <= p)%Q.
Proof.
  unfold FlightInfo_of_raw. intros E Hp N.
  destruct (_parse_stops (RawFlight.stops raw)); [|discriminate].
  cbn [res_bind] in E.
  destruct (_parse_price (RawFlight.price raw)) as [pv|] eqn:Ep; [|discriminate].
  cbn [res_bind] in E.
  destruct (validate_opt_int a); [|discriminate]. cbn [res_bind] in E.
  destruct (validate_opt_float pv) as [pr|] eqn:Ev; [|discriminate].
  cbn [res_bind] in E. inversion E; subst fi. cbn in Hp. subst pr.
  eapply validated_price_sign; eauto.
Qed.

Lemma best_by_price_In {A} `{Priced A} (l : list A) (x : A) :
  best_by_price l = Some x -> In x l /\ exists p, price_of x = Some p.
Proof.
  intro E. pose proof (best_by_price_first l) as B. rewrite E in B.
  destruct B as (l1 & l2 & p & -> & Hp & _). split.
  - apply in_or_app. right. now left.
  - eauto.
Qed.

Lemma return_flights_In {C : Collaborators} (req : TripPlanRequest.t)
      (f : FlightInfo.t) :
  In f (return_flights req) ->
  exists q fl, found_flights q = Ret fl /\ In f fl.
Proof.
  unfold return_flights.
  destruct (TripPlanRequest.return_date req) as [r|]; [|intros []].
  destruct (truthy_str r); [|intros []].
  intro I'. apply in_flat_map in I' as (t & _ & It).
  unfold variant_flights in It.
  destruct (found_flights (return_query req r t)) as [fl|] eqn:E; [|destruct It].
  eauto.
Qed.

(** X14.  When the flight collaborator never delivers a negative number
    as a price (it delivers texts, as a scraper does), no flight selected
    has a negative price, and with a head count that is not negative the
    flight cost of a plan is not negative. *)
Theorem flight_cost_nonneg
        (C : Collaborators) (req : TripPlanRequest.t) (tr tr' : list Event)
        (resp : TripPlanResponse.t) :
  plan_trip req tr = (tr', Ret resp) ->
  (forall q result raw,
      get_flights q = Ret result -> In raw (FlightsResult.flights result) ->
      ~ negative_number (RawFlight.price raw)) ->
  0 <= TripPlanRequest.adults req + TripPlanRequest.children req ->
  (0 <= price_or_zero (TripPlanResponse.best_outbound_flight resp))%Q
  /\ (0 <= price_or_zero (TripPlanResponse.best_return_flight resp))%Q
  /\ (0 <= Breakdown.flight (TripPlanResponse.breakdown resp))%Q.
Proof.
  intros K N T.
  destruct (plan_trip_returns_inv req tr tr' resp K)
    as (fl & hs & n & E1 & _ & _ & _ & ->).
  assert (forall q l, found_flights q = Ret l ->
            (0 <= price_or_zero (best_by_price l))%Q) as P.
  { intros q l E. unfold price_or_zero.
    destruct (best_by_price l) as [f|] eqn:B; [|lra].
    destruct (best_by_price_In l f B) as (If & p & Hp). rewrite Hp.
    destruct (found_flights_In q l f E If) as (result & raw & Er & Ir & Ef).
    eapply record_price_sign; eauto. }
  assert (0 <= price_or_zero (best_by_price fl))%Q as Po by (eapply P; eauto).
  assert (0 <= price_or_zero (best_by_price (return_flights req)))%Q as Pr.
  { unfold price_or_zero.
    destruct (best_by_price (return_flights req)) as [f|] eqn:B; [|lra].
    destruct (best_by_price_In _ f B) as (If & p & Hp). rewrite Hp.
    destruct (return_flights_In req f If) as (q & l & E & Il).
    destruct (found_flights_In q l f E Il) as (result & raw & Er & Ir & Ef).
    eapply record_price_sign; eauto. }
  cbn [assemble TripPlanResponse.best_outbound_flight
       TripPlanResponse.best_return_flight].
  split; [exact Po|]. split; [exact Pr|].
  rewrite assemble_flight.
  pose proof (inject_Z_nonneg _ T). nra.
Qed.

Lemma flight_cost_nonneg_witness :
  exists resp,
    snd (@plan_trip world_300 (a_request "2025-06-24" (Some "2025-06-27") None) [])
    = Ret resp
    /\ (0 <= Breakdown.flight (TripPlanResponse.breakdown resp))%Q.
Proof.
  eexists. split; [reflexivity|].
  apply (flight_cost_nonneg world_300
           (a_request "2025-06-24" (Some "2025-06-27") None) [] _ _ eq_refl).
  - intros q result raw E I'. cbn in E. inversion E; subst result.
    cbn in I'. destruct I' as [<-|[]]. cbn. tauto.
  - cbn. lia.
Defined.

(** ** Selection over a concatenation, and the filter as a filter *)

(** X15.  Selecting by price in two lists put end to end is selecting in
    each and keeping the cheaper of the two selections, the one of the
    first list on a tie; records without a price never matter.  This is
    why the return leg, which selects per trip type and compares with a
    strict less-than, ends with the first cheapest of all the flights. *)
Theorem best_by_price_app :
  forall (A : Type) (P : Priced A) (l1 l2 : list A),
    best_by_price (l1 ++ l2) = cheaper_first (best_by_price l1) (best_by_price l2).
Proof.
  intros A P l1 l2. unfold cheaper_first.
  destruct (best_by_price l2) as [c|] eqn:Ec.
  - destruct (best_by_price_priced l2 c Ec) as (pc & Hpc & Mc).
    destruct (priced l2) as [|y s] eqn:Pc; [contradiction|].
    destruct (best_by_price l1) as [b|] eqn:Eb.
    + destruct (best_by_price_priced l1 b Eb) as (pb & Hpb & Mb).
      destruct (priced l1) as [|x r] eqn:Pp; [contradiction|].
      unfold best_by_price, py_min. rewrite priced_app, Pp, Pc.
      cbn [app]. rewrite min_scan_app, min_scan_cons, Mb, Mc.
      unfold price_or_zero. rewrite Hpc, Hpb. cbn [fst].
      destruct (Qltb pc pb); reflexivity.
    + unfold best_by_price, py_min in Eb |- *. rewrite priced_app, Pc.
      destruct (priced l1) as [|x r]; [|discriminate].
      cbn [app]. now rewrite Mc.
  - unfold best_by_price, py_min in Ec |- *.
    destruct (priced l2) as [|y s] eqn:Pc; [|discriminate].
    rewrite priced_app, Pc, app_nil_r.
    destruct (priced l1); reflexivity.
Qed.

Lemma filter_idem {A} (p : A -> bool) (l : list A) :
  filter p (filter p l) = filter p l.
Proof.
  rewrite filter_filter. apply filter_ext. intro x. now destruct (p x).
Qed.

Lemma filter_hotels_as_filter (prefs0 : option HotelPreferences.t) :
  exists p, forall hs, filter_hotels prefs0 hs = filter p hs.
Proof.
  destruct prefs0 as [pr|].
  - exists (keeps pr). apply filter_hotels_keeps.
  - exists (fun _ => true). intro hs. simpl. symmetry. apply filter_true.
Qed.

(** X16.  The hotel filter only removes hotels: what it keeps was in
    the list, in the same order and no more often; it judges each hotel
    on its own, so that filtering two lists put end to end is filtering
    each; and filtering again what was filtered changes nothing. *)
Theorem filter_hotels_only_removes :
  forall (prefs0 : option HotelPreferences.t) (hs hs' : list HotelInfo.t),
    (forall h, In h (filter_hotels prefs0 hs) -> In h hs)
    /\ (List.length (filter_hotels prefs0 hs) <= List.length hs)%nat
    /\ filter_hotels prefs0 (hs ++ hs')
       = (filter_hotels prefs0 hs ++ filter_hotels prefs0 hs')%list
    /\ filter_hotels prefs0 (filter_hotels prefs0 hs) = filter_hotels prefs0 hs
    /\ (forall h, In h hs ->
          In h (filter_hotels prefs0 hs) <-> filter_hotels prefs0 [h] = [h]).
Proof.
  intros prefs0 hs hs'. destruct (filter_hotels_as_filter prefs0) as [p F].
  rewrite !F. repeat split.
  - intros h K. now apply filter_In in K.
  - apply filter_length_le.
  - apply filter_app.
  - apply filter_idem.
  - intro K. apply filter_In in K as [_ K]. rewrite F. simpl. now rewrite K.
  - intro K. apply filter_In. split; [assumption|].
    rewrite F in K. simpl in K. destruct (p h); [reflexivity | discriminate].
Qed.

(** ** The hotel leg and [/hotels/search] *)

(** X17.  The hotel leg of [/trip/plan] asks the question of a
    [/hotels/search] request at the destination, from depart_date to
    return_date (to depart_date itself without a return date), live, for
    at most 10 hotels.  When that search answers a list, the hotel of
    every plan that succeeds is the first cheapest of the hotels of that
    list that pass the preferences; when it answers a 400 with some
    detail and the outbound leg succeeds, the plan answers a 502 whose
    detail is "Hotel search failed: " followed by the same detail. *)
Theorem hotel_leg_is_hotel_search :
  forall (C : Collaborators) (req : TripPlanRequest.t) (tr tr2 : list Event),
    hotel_search_query (as_hotel_search req) = hotel_query req
    /\ match snd (search_hotels (as_hotel_search req) tr) with
       | Ret found =>
           forall tr3 resp,
             plan_trip req tr2 = (tr3, Ret resp) ->
             TripPlanResponse.best_hotel resp
             = best_by_price
                 (filter_hotels (TripPlanRequest.hotel_preferences req)
                    (HotelSearchResponse.hotels found))
       | Raise err =>
           exists detail,
             err = HTTPException 400 detail
             /\ forall fl,
                  found_flights (outbound_query req) = Ret fl ->
                  snd (plan_trip req tr2)
                  = Raise (HTTPException 502 ("Hotel search failed: " ++ detail))
       end.
Proof.
  intros C req tr tr2. split; [reflexivity|].
  unfold search_hotels, try_except, bind, call_get_hotels, ret.
  change (hotel_search_query (as_hotel_search req)) with (hotel_query req).
  rewrite plan_trip_run. unfold found_hotels.
  destruct (get_hotels (hotel_query req)) as [result|e]; cbn [res_bind snd].
  - intros tr3 resp K.
    destruct (found_flights (outbound_query req)); [|discriminate].
    destruct (compute_nights req); [|discriminate].
    inversion K; subst. reflexivity.
  - unfold logging, raise. cbn [snd]. eexists. split; [reflexivity|].
    intros fl E. now rewrite E.
Qed.

(** ** The further statements at concrete inputs *)


Lemma search_hotels_outcomes_witness :
  @search_hotels world_no_hotels
     (as_hotel_search (a_request "2025-06-24" (Some "2025-06-27") None)) []
  = ([CallGetHotels
        (hotel_search_query
           (as_hotel_search (a_request "2025-06-24" (Some "2025-06-27") None)));
      Logged ERROR "Hotel search error: Scraper blocked"],
     Raise (HTTPException 400 "Scraper blocked")).
Proof.
  exact (proj1 (proj2 (proj2
           (search_hotels_outcomes world_no_hotels
              (as_hotel_search (a_request "2025-06-24" (Some "2025-06-27") None))
              [])))
           (UpstreamError "Scraper blocked") eq_refl).
Defined.

Lemma outbound_leg_is_flight_search_witness :
  exists resp,
    snd (@plan_trip world_variants
           (a_request "2025-06-24" (Some "2025-06-27") None) []) = Ret resp
    /\ TripPlanResponse.best_outbound_flight resp
       = best_by_price
           [FlightInfo.mk "BA 304" "10:00 AM" "12:00 PM" None (Some "2 hr")
              (Some 0) None (Some 300%Q) None].
Proof.
  eexists. split; [reflexivity|].
  exact (proj2 (outbound_leg_is_flight_search world_variants
                  (a_request "2025-06-24" (Some "2025-06-27") None) [] [])
               _ _ eq_refl).
Defined.

Lemma hotel_leg_is_hotel_search_witness :
  exists detail,
    HTTPException 400 "Scraper blocked" = HTTPException 400 detail
    /\ snd (@plan_trip world_no_hotels
              (a_request "2025-06-24" (Some "2025-06-27") None) [])
       = Raise (HTTPException 502 ("Hotel search failed: " ++ detail)).
Proof.
  destruct (proj2 (hotel_leg_is_hotel_search world_no_hotels
                     (a_request "2025-06-24" (Some "2025-06-27") None) [] []))
    as (detail & E & K).
  exists detail. split; [exact E|]. exact (K _ eq_refl).
Defined.
